(** * Grompt: prompt templating and the single chat-completion request

    A shallow embedding of [Grompt.py], [prompt_canvas.py] and the
    [PromptCanvas] part of [streamlit_app.py].

    A Python [str] is a [string]; a character of a [string] stands for the
    code point of the same number, so the texts of the model are those over
    U+0000 to U+00FF.  [Optional[List[str]]] is [option (list string)], a
    Python [int] is [Z], a Python [float] is a [spec_float], which the
    program only passes on.

    The renderer is embedded twice: on values, where a canvas is a record,
    and on objects, where a canvas is a reference into a store and every
    attribute access is a read of that store.  The second embedding carries
    the effects: the store, the calls to the SDK and the exceptions. *)

From Stdlib Require Import ZArith Ascii String SpecFloat.
From stdpp Require Import base strings list gmap.

Local Open Scope string_scope.

(** ** Python built-ins used by the program *)

(** The line feed, ['\n']. *)
Definition nl : string := String "010"%char "".

(** The double quote character. *)
Definition dquote : string := String "034"%char "".

(** [sep.join(parts)]. *)
Fixpoint str_join (sep : string) (parts : list string) : string :=
  match parts with
  | [] => ""
  | [x] => x
  | x :: rest => x +:+ sep +:+ str_join sep rest
  end.

(** [x in s] on two strings: [x] occurs in [s] as a contiguous run. *)
Fixpoint str_contains (x s : string) : bool :=
  String.prefix x s ||
  match s with
  | EmptyString => false
  | String _ s' => str_contains x s'
  end.

(** [str.isspace] on one character, for the code points below 256:
    TAB, LF, VT, FF, CR, FS, GS, RS, US, SPACE, NEL and NBSP. *)
Definition isspace (ch : ascii) : bool :=
  let n := nat_of_ascii ch in
  ((9 <=? n) && (n <=? 13) || (28 <=? n) && (n <=? 32)
   || (n =? 133) || (n =? 160))%nat.

(** [s.lstrip()]. *)
Fixpoint lstrip (s : string) : string :=
  match s with
  | EmptyString => EmptyString
  | String ch s' => if isspace ch then lstrip s' else s
  end.

(** [s.rstrip()]: a character is kept when it is not white space or when
    something survives to its right. *)
Fixpoint rstrip (s : string) : string :=
  match s with
  | EmptyString => EmptyString
  | String ch s' =>
      match rstrip s' with
      | EmptyString => if isspace ch then EmptyString else String ch EmptyString
      | r => String ch r
      end
  end.

(** [s.strip()]. *)
Definition strip (s : string) : string := rstrip (lstrip s).

(** [s.split(sep)] for a separator of one character. *)
Fixpoint split_char (sep : ascii) (s : string) : list string :=
  match s with
  | EmptyString => [EmptyString]
  | String ch s' =>
      if Ascii.eqb ch sep then EmptyString :: split_char sep s'
      else match split_char sep s' with
           | [] => [String ch EmptyString]
           | h :: t => String ch h :: t
           end
  end.

(** [s.split('\n')]. *)
Definition split_lines (s : string) : list string := split_char "010"%char s.

(** Truth value of a [str]: non-empty. *)
Definition str_truthy (s : string) : bool :=
  match s with EmptyString => false | _ => true end.

(** ** prompt_canvas.py *)

Record PromptCanvas := mkPromptCanvas {
  persona : string;
  audience : string;
  task : string;
  steps : option (list string);
  context : string;
  references : option (list string);
  output_format : string;
  tonality : string
}.

(** ** Grompt.py, on values *)

(** [f'- {step}']. *)
Definition bullet (step : string) : string := "- " +:+ step.

(** ['\n'.join(f'- {step}' for step in canvas.steps) if canvas.steps else "None"]:
    [None] and the empty list are both false. *)
Definition steps_str (canvas : PromptCanvas) : string :=
  match steps canvas with
  | Some ((_ :: _) as l) => str_join nl (map bullet l)
  | _ => "None"
  end.

(** [', '.join(canvas.references) if canvas.references else "None"]. *)
Definition references_str (canvas : PromptCanvas) : string :=
  match references canvas with
  | Some ((_ :: _) as l) => str_join ", " l
  | _ => "None"
  end.

Definition get_rephrased_user_prompt (prompt : string) : string :=
  "You are a professional prompt engineer. Optimize this prompt by making it clearer, more concise, and more effective."
  +:+ nl +:+ "    User request: " +:+ dquote +:+ prompt +:+ dquote
  +:+ nl +:+ "    Rephrased:".

(** [if canvas:] holds for every [PromptCanvas] object (the class defines
    neither [__bool__] nor [__len__]) and fails for [None]. *)
Definition craft_system_message (canvas : option PromptCanvas) (prompt : string)
  : string :=
  match canvas with
  | Some canvas =>
      "You are a " +:+ persona canvas
      +:+ " focused on delivering results for " +:+ audience canvas +:+ "."
      +:+ nl +:+ nl
      +:+ "Task: " +:+ task canvas +:+ nl +:+ nl
      +:+ "Step-by-Step Approach:" +:+ nl
      +:+ steps_str canvas +:+ nl +:+ nl
      +:+ "Context: " +:+ context canvas +:+ nl +:+ nl
      +:+ "References: " +:+ references_str canvas +:+ nl +:+ nl
      +:+ "Output Requirements:" +:+ nl
      +:+ "- Format: " +:+ output_format canvas +:+ nl
      +:+ "- Tone: " +:+ tonality canvas
  | None => get_rephrased_user_prompt prompt
  end.

(** ** Exceptions, results and the Groq SDK *)

(** An instance of [Exception]: its class name and [str(e)].  Interpreter
    signals that are not instances of [Exception] ([KeyboardInterrupt],
    [SystemExit]) are asynchronous and outside this model. *)
Record exn := mkExn { exn_class : string; exn_str : string }.

Inductive result (A : Type) : Type :=
  | Ok (a : A)
  | Raise (e : exn).
Arguments Ok {A} a.
Arguments Raise {A} e.

(** A Python [float]. *)
Abbreviation float := spec_float.

(** [0.5], the default temperature, as a binary64 value: 2^52 * 2^-53. *)
Definition half : float := S754_finite false 4503599627370496 (-53).

(** One entry of [messages]: the dict [{"role": ..., "content": ...}]. *)
Record ChatMessage := mkChatMessage { role : string; content : string }.

(** The keyword arguments of [chat.completions.create]. *)
Record ChatRequest := mkChatRequest {
  messages : list ChatMessage;
  model : string;
  temperature : float;
  max_tokens : Z
}.

(** The part of a completion the program reads:
    [response.choices[0].message.content], which the SDK types as an
    optional string. *)
Module Response.
Record Message := mkMessage { content : option string }.
Record Choice := mkChoice { message : Message }.
Record ChatCompletion := mkChatCompletion { choices : list Choice }.
End Response.

(** The SDK is external: the client constructor [Groq()] reads the
    environment and may raise; [create] performs the remote call on the
    outside world and may raise. *)
Class GroqSDK := {
  World : Type;
  Client : Type;
  Groq : World -> result Client * World;
  chat_completions_create :
    Client -> ChatRequest -> World -> result Response.ChatCompletion * World
}.

(** ** Objects and effects *)

(** A reference to a [PromptCanvas] object. *)
Abbreviation loc := positive.

Section Effects.
Context {sdk : GroqSDK}.

(** The store of canvas objects, the outside world, and the requests
    handed to the SDK so far, oldest first. *)
Record state := mkState {
  heap : gmap loc PromptCanvas;
  world : World;
  sent : list ChatRequest
}.

Definition M (A : Type) : Type := state -> result A * state.

#[global] Instance M_ret : MRet M := fun A a s => (Ok a, s).

#[global] Instance M_bind : MBind M := fun A B k m s =>
  match m s with
  | (Ok a, s') => k a s'
  | (Raise e, s') => (Raise e, s')
  end.

Definition raise {A} (e : exn) : M A := fun s => (Raise e, s).

(** [try: body except Exception as e: handler e]. *)
Definition try_except {A} (body : M A) (handler : exn -> M A) : M A :=
  fun s =>
    match body s with
    | (Ok a, s') => (Ok a, s')
    | (Raise e, s') => handler e s'
    end.

(** Reading a reference that names no object cannot happen in Python;
    the model raises. *)
Definition dangling : exn := mkExn "ReferenceError" "no such object".

(** [obj.field]. *)
Definition getattr {A} (obj : loc) (field : PromptCanvas -> A) : M A :=
  fun s =>
    match heap s !! obj with
    | Some c => (Ok (field c), s)
    | None => (Raise dangling, s)
    end.

(** [obj.field = v], with [upd] writing the field. *)
Definition setattr (obj : loc) (upd : PromptCanvas -> PromptCanvas) : M unit :=
  fun s =>
    match heap s !! obj with
    | Some c => (Ok tt, mkState (<[obj := upd c]> (heap s)) (world s) (sent s))
    | None => (Raise dangling, s)
    end.

(** A new object at a reference not in use. *)
Definition alloc (c : PromptCanvas) : M loc :=
  fun s =>
    let l := fresh (dom (heap s)) in
    (Ok l, mkState (<[l := c]> (heap s)) (world s) (sent s)).

(** [Groq()]. *)
Definition Groq_new : M Client :=
  fun s =>
    let (r, w) := Groq (world s) in
    (r, mkState (heap s) w (sent s)).

(** [groq.chat.completions.create(...)]: the request leaves the program,
    whatever the SDK answers. *)
Definition create (groq : Client) (req : ChatRequest)
  : M Response.ChatCompletion :=
  fun s =>
    let (r, w) := chat_completions_create groq req (world s) in
    (r, mkState (heap s) w (sent s ++ [req])).

(** [xs[0]]. *)
Definition index0 {A} (xs : list A) : M A :=
  match xs with
  | x :: _ => mret x
  | [] => raise (mkExn "IndexError" "list index out of range")
  end.

(** [content.strip()], where [content] may be [None]. *)
Definition strip_method (content : option string) : M string :=
  match content with
  | Some t => mret (strip t)
  | None =>
      raise (mkExn "AttributeError"
               "'NoneType' object has no attribute 'strip'")
  end.

End Effects.

(** ** Grompt.py, on objects *)

Module Obj.
Section WithSDK.
Context {sdk : GroqSDK}.

(** The attribute reads happen in the order of the source text; a
    condition and the branch it selects each read the attribute, and the
    second read finds what the first found. *)
Definition steps_str (canvas : loc) : M string :=
  cond ← getattr canvas steps;
  match cond with
  | Some (_ :: _) =>
      it ← getattr canvas steps;
      mret (str_join nl (map bullet (default [] it)))
  | _ => mret "None"
  end.

Definition references_str (canvas : loc) : M string :=
  cond ← getattr canvas references;
  match cond with
  | Some (_ :: _) =>
      it ← getattr canvas references;
      mret (str_join ", " (default [] it))
  | _ => mret "None"
  end.

Definition craft_system_message (canvas : option loc) (prompt : string)
  : M string :=
  match canvas with
  | Some canvas =>
      steps_str ← steps_str canvas;
      references_str ← references_str canvas;
      persona ← getattr canvas persona;
      audience ← getattr canvas audience;
      task ← getattr canvas task;
      context ← getattr canvas context;
      output_format ← getattr canvas output_format;
      tonality ← getattr canvas tonality;
      mret ("You are a " +:+ persona
            +:+ " focused on delivering results for " +:+ audience +:+ "."
            +:+ nl +:+ nl
            +:+ "Task: " +:+ task +:+ nl +:+ nl
            +:+ "Step-by-Step Approach:" +:+ nl
            +:+ steps_str +:+ nl +:+ nl
            +:+ "Context: " +:+ context +:+ nl +:+ nl
            +:+ "References: " +:+ references_str +:+ nl +:+ nl
            +:+ "Output Requirements:" +:+ nl
            +:+ "- Format: " +:+ output_format +:+ nl
            +:+ "- Tone: " +:+ tonality)
  | None => mret (get_rephrased_user_prompt prompt)
  end.

Definition rephrase_prompt (prompt model : string) (temperature : float)
    (max_tokens : Z) (canvas : option loc) : M string :=
  try_except
    (groq ← Groq_new;
     system_message ← craft_system_message canvas prompt;
     response ← create groq
       (mkChatRequest [mkChatMessage "user" system_message]
          model temperature max_tokens);
     choice ← index0 (Response.choices response);
     strip_method (Response.content (Response.message choice)))
    (fun e =>
       raise (mkExn "Exception" ("Prompt engineering error: " +:+ exn_str e))).

End WithSDK.
End Obj.

(** ** streamlit_app.py: the [PromptCanvas] class and the advanced mode *)

Definition set_steps (v : option (list string)) (c : PromptCanvas)
  : PromptCanvas :=
  mkPromptCanvas (persona c) (audience c) (task c) v (context c)
    (references c) (output_format c) (tonality c).

Definition set_references (v : option (list string)) (c : PromptCanvas)
  : PromptCanvas :=
  mkPromptCanvas (persona c) (audience c) (task c) (steps c) (context c)
    v (output_format c) (tonality c).

(** [[s.strip() for s in text.split('\n') if text and s.strip()]]. *)
Definition nonblank_lines (text : string) : list string :=
  map strip
    (List.filter (fun s => str_truthy text && str_truthy (strip s))
       (split_lines text)).

Module App.
Section WithSDK.
Context {sdk : GroqSDK}.

Definition __post_init__ (self : loc) : M unit :=
  s ← getattr self steps;
  match s with
  | None => setattr self (set_steps (Some []))
  | Some _ => mret tt
  end;;
  r ← getattr self references;
  match r with
  | None => setattr self (set_references (Some []))
  | Some _ => mret tt
  end.

(** [PromptCanvas(persona=..., ..., tonality=...)]: the generated
    [__init__] stores the eight arguments and calls [__post_init__]. *)
Definition new_PromptCanvas (persona audience task : string)
    (steps : option (list string)) (context : string)
    (references : option (list string)) (output_format tonality : string)
  : M loc :=
  self ← alloc (mkPromptCanvas persona audience task steps context
                  references output_format tonality);
  __post_init__ self;;
  mret self.

(** The branch [if canvas_prompt:] of the button handler: the canvas
    is built from the form and handed to [rephrase_prompt].  The
    reference is returned with the result so that the object can be
    inspected afterwards. *)
Definition advanced_mode (persona audience task steps context references
    output_format tonality canvas_prompt model : string)
    (temperature : float) (max_tokens : Z) : M (loc * string) :=
  canvas ← new_PromptCanvas persona audience task
             (Some (nonblank_lines steps)) context
             (Some (nonblank_lines references)) output_format tonality;
  optimized_prompt ← Obj.rephrase_prompt canvas_prompt model temperature
                       max_tokens (Some canvas);
  mret (canvas, optimized_prompt).
End WithSDK.
End App.

(** ** The declaration of the record, as data *)

Inductive field : Type :=
  | f_persona | f_audience | f_task | f_steps
  | f_context | f_references | f_output_format | f_tonality.

(** The two annotations that occur: [str] and [Optional[List[str]]]. *)
Inductive annotation : Type := T_str | T_optional_list_str.

(** The fields in declaration order. *)
Definition fields : list field :=
  [f_persona; f_audience; f_task; f_steps;
   f_context; f_references; f_output_format; f_tonality].

#[global] Instance field_eq_dec : EqDecision field.
Proof. solve_decision. Defined.

Definition annotation_of (f : field) : annotation :=
  match f with
  | f_steps | f_references => T_optional_list_str
  | _ => T_str
  end.

Definition value_of (t : annotation) : Type :=
  match t with
  | T_str => string
  | T_optional_list_str => option (list string)
  end.

(** [getattr(canvas, f)], typed by the annotation of [f]. *)
Definition field_value (f : field) (c : PromptCanvas)
  : value_of (annotation_of f) :=
  match f with
  | f_persona => persona c
  | f_audience => audience c
  | f_task => task c
  | f_steps => steps c
  | f_context => context c
  | f_references => references c
  | f_output_format => output_format c
  | f_tonality => tonality c
  end.

Definition is_str (f : field) : bool :=
  match annotation_of f with T_str => true | _ => false end.

Definition is_sequence (f : field) : bool :=
  match annotation_of f with T_optional_list_str => true | _ => false end.

(** ** A test double of the SDK *)

(** What the outside world does with the next call. *)
Inductive behaviour : Type :=
  | Answers (text : string)
  | NoKey
  | Unreachable
  | NoChoices
  | NullContent.

Definition stub_Groq (w : behaviour) : result unit * behaviour :=
  match w with
  | NoKey =>
      (Raise (mkExn "GroqError" "The api_key client option must be set"), w)
  | _ => (Ok tt, w)
  end.

Definition stub_create (_ : unit) (_ : ChatRequest) (w : behaviour)
  : result Response.ChatCompletion * behaviour :=
  match w with
  | Answers text =>
      (Ok (Response.mkChatCompletion
             [Response.mkChoice (Response.mkMessage (Some text))]), w)
  | NoChoices => (Ok (Response.mkChatCompletion []), w)
  | NullContent =>
      (Ok (Response.mkChatCompletion
             [Response.mkChoice (Response.mkMessage None)]), w)
  | _ => (Raise (mkExn "APIConnectionError" "Connection error."), w)
  end.

Definition stub_sdk : GroqSDK :=
  {| World := behaviour; Client := unit;
     Groq := stub_Groq; chat_completions_create := stub_create |}.

Definition demo : PromptCanvas :=
  mkPromptCanvas "writer" "devs" "explain" (Some ["one"; "two"]) "ctx"
    (Some ["r1"; "r2"]) "Code" "dry".

Definition demo_state (w : behaviour) : @state stub_sdk :=
  @mkState stub_sdk (<[1%positive := demo]> ∅) w [].

(** The f-string of [craft_system_message] with its two computed slots,
    [steps_str] and [references_str], left open. *)
Definition template (canvas : PromptCanvas) (steps_text references_text : string)
  : string :=
  "You are a " +:+ persona canvas
  +:+ " focused on delivering results for " +:+ audience canvas +:+ "."
  +:+ nl +:+ nl
  +:+ "Task: " +:+ task canvas +:+ nl +:+ nl
  +:+ "Step-by-Step Approach:" +:+ nl
  +:+ steps_text +:+ nl +:+ nl
  +:+ "Context: " +:+ context canvas +:+ nl +:+ nl
  +:+ "References: " +:+ references_text +:+ nl +:+ nl
  +:+ "Output Requirements:" +:+ nl
  +:+ "- Format: " +:+ output_format canvas +:+ nl
  +:+ "- Tone: " +:+ tonality canvas.

(** An optional list that Python treats as false: [None] or [[]]. *)
Definition falsy (o : option (list string)) : bool :=
  match o with Some (_ :: _) => false | _ => true end.

(** The string has a line feed in it. *)
Fixpoint has_newline (s : string) : bool :=
  match s with
  | EmptyString => false
  | String ch s' => Ascii.eqb ch "010"%char || has_newline s'
  end.

(** Every character is white space. *)
Fixpoint all_space (s : string) : bool :=
  match s with
  | EmptyString => true
  | String ch s' => isspace ch && all_space s'
  end.

Definition starts_with_space (s : string) : bool :=
  match s with String ch _ => isspace ch | EmptyString => false end.

Fixpoint ends_with_space (s : string) : bool :=
  match s with
  | EmptyString => false
  | String ch EmptyString => isspace ch
  | String _ s' => ends_with_space s'
  end.

(** [out] is [text] less the white space at its two ends. *)
Definition stripped_form (text out : string) : Prop :=
  exists a b,
    text = a +:+ out +:+ b
    /\ all_space a = true /\ all_space b = true
    /\ starts_with_space out = false
    /\ ends_with_space out = false.

(** What the canvas argument denotes in a state: [None], or the fields of
    the object it refers to; [None] outside when the reference dangles. *)
Definition deref {sdk : GroqSDK} (s : state) (canvas : option loc)
  : option (option PromptCanvas) :=
  match canvas with
  | None => Some None
  | Some l => Some <$> heap s !! l
  end.

(** The exception the handler of [rephrase_prompt] raises for [e]. *)
Definition generic_error (e : exn) : exn :=
  mkExn "Exception" ("Prompt engineering error: " +:+ exn_str e).

(** The request that carries [system_message] as its only message. *)
Definition request_with (system_message model : string) (temperature : float)
    (max_tokens : Z) : ChatRequest :=
  mkChatRequest [mkChatMessage "user" system_message]
    model temperature max_tokens.

(** What [rephrase_prompt] makes of a completion. *)
Definition read_reply (response : Response.ChatCompletion) : result string :=
  match Response.choices response with
  | [] => Raise (generic_error (mkExn "IndexError" "list index out of range"))
  | choice :: _ =>
      match Response.content (Response.message choice) with
      | None =>
          Raise (generic_error
                   (mkExn "AttributeError"
                      "'NoneType' object has no attribute 'strip'"))
      | Some text => Ok (strip text)
      end
  end.

(** A second state for the examples: the same canvas under another
    reference, another world, and a request already sent. *)
Definition other_state : @state stub_sdk :=
  @mkState stub_sdk (<[5%positive := demo]> ∅) Unreachable
    [request_with "earlier" "m" half 1%Z].

(** ** Grompt.py: [main] *)

Module Cli.

(** The namespace [parser.parse_args()] returns; the parsing itself is
    argparse's. *)
Record Namespace := mkNamespace {
  prompt : string;
  model : string;
  temperature : float;
  max_tokens : Z
}.

Section WithSDK.
Context {sdk : GroqSDK}.

(** [main] from the parsed arguments on.  The value is the list of the
    arguments of [print], in the order of the calls. *)
Definition main (args : Namespace) : M (list string) :=
  try_except
    (rephrased ← Obj.rephrase_prompt (prompt args) (model args)
                   (temperature args) (max_tokens args) None;
     mret ["Rephrased prompt:"; rephrased])
    (fun e => mret ["Error: " +:+ exn_str e]).

End WithSDK.
End Cli.

(** ** streamlit_app.py: the button handler *)

(** What the handler puts on the page. *)
Inductive widget : Type :=
  | st_error (body : string)
  | st_warning (body : string)
  | st_subheader (body : string)
  | st_write (body : string).

(** The two things the script does to its host beside calling the SDK:
    [os.environ['GROQ_API_KEY'] = value], and
    [import_module_from_path("Grompt", "Grompt.py")], which runs the
    module and may raise. *)
Class Host (sdk : GroqSDK) := {
  set_GROQ_API_KEY : string -> World -> World;
  import_Grompt : World -> result unit * World
}.

Module Page.
Section WithHost.
Context {sdk : GroqSDK} {host : Host sdk}.

Definition setenv (value : string) : M unit :=
  fun s => (Ok tt, mkState (heap s) (set_GROQ_API_KEY value (world s)) (sent s)).

Definition import_module_from_path : M unit :=
  fun s =>
    let (r, w) := import_Grompt (world s) in
    (r, mkState (heap s) w (sent s)).

(** [if optimized_prompt: st.subheader(...); st.write(optimized_prompt)]. *)
Definition display (optimized_prompt : string) : list widget :=
  if str_truthy optimized_prompt
  then [st_subheader "Optimized Prompt:"; st_write optimized_prompt]
  else [].

(** The body of [if st.button("Optimize Prompt"):], with the values of
    the widgets as arguments.  The value is what the handler shows; a
    raise is an exception the script does not catch.  [st.stop()] ends the
    script, and with it the handler. *)
Definition on_click (GROQ_API_KEY user_prompt persona audience task steps
    context references output_format tonality canvas_prompt model : string)
    (temperature : float) (max_tokens : Z) : M (list widget) :=
  if negb (str_truthy GROQ_API_KEY) then
    mret [st_error "Please enter your GROQ API Key in the sidebar."]
  else if str_truthy user_prompt || str_truthy canvas_prompt then
    setenv GROQ_API_KEY;;
    failure ← try_except (import_module_from_path;; mret None)
                (fun e => mret (Some e));
    match failure with
    | Some e => mret [st_error ("Unable to import 'Grompt': " +:+ exn_str e)]
    | None =>
        optimized_prompt ←
          (if str_truthy canvas_prompt then
             built ← App.advanced_mode persona audience task steps context
                       references output_format tonality canvas_prompt model
                       temperature max_tokens;
             mret (snd built)
           else
             Obj.rephrase_prompt user_prompt model temperature max_tokens
               None);
        mret (display optimized_prompt)
    end
  else
    mret [st_warning "Please enter a prompt to optimize."].

End WithHost.
End Page.

(** A host whose import succeeds and one whose import fails. *)
Definition stub_host : Host stub_sdk :=
  {| set_GROQ_API_KEY := fun _ (w : @World stub_sdk) => w;
     import_Grompt := fun (w : @World stub_sdk) => (Ok tt, w) |}.

Definition broken_host : Host stub_sdk :=
  {| set_GROQ_API_KEY := fun _ (w : @World stub_sdk) => w;
     import_Grompt := fun (w : @World stub_sdk) =>
       (Raise (mkExn "FileNotFoundError"
                 "[Errno 2] No such file or directory: 'Grompt.py'"), w) |}.

(** A line the form keeps as it is: not empty, no white space at either
    end, no line feed inside. *)
Definition clean_line (x : string) : bool :=
  str_truthy x && negb (starts_with_space x) && negb (ends_with_space x)
  && negb (has_newline x).

(** * Properties *)

(** ** Strings *)

Lemma append_nil (b : string) : "" +:+ b = b.
Proof. reflexivity. Qed.

Lemma append_cons (ch : ascii) (a b : string) :
  String ch a +:+ b = String ch (a +:+ b).
Proof. reflexivity. Qed.

Lemma append_assoc (a b c : string) : (a +:+ b) +:+ c = a +:+ b +:+ c.
Proof.
  induction a as [|ch a IH]; [reflexivity |].
  by rewrite !append_cons, IH.
Qed.

Lemma append_empty_r (a : string) : a +:+ "" = a.
Proof.
  induction a as [|ch a IH]; [reflexivity |]. by rewrite append_cons, IH.
Qed.

Lemma prefix_append (x q : string) : String.prefix x (x +:+ q) = true.
Proof.
  induction x as [|ch x IH]; [by destruct q |].
  rewrite append_cons; simpl.
  destruct (ascii_dec ch ch); [exact IH | contradiction].
Qed.

Lemma prefix_split (x s : string) :
  String.prefix x s = true -> exists q, s = x +:+ q.
Proof.
  revert s; induction x as [|ch x IH]; intros s H.
  - by exists s.
  - destruct s as [|ch' s]; [discriminate |]. simpl in H.
    destruct (ascii_dec ch ch') as [->|]; [| discriminate].
    destruct (IH _ H) as [q ->]. exists q. by rewrite append_cons.
Qed.

Lemma contains_unfold (x s : string) :
  str_contains x s
  = String.prefix x s
    || match s with
       | EmptyString => false
       | String _ s' => str_contains x s'
       end.
Proof. by destruct s. Qed.

Lemma contains_prefix (x s : string) :
  String.prefix x s = true -> str_contains x s = true.
Proof. intros H. by rewrite contains_unfold, H. Qed.

Lemma contains_here (x q : string) : str_contains x (x +:+ q) = true.
Proof. apply contains_prefix, prefix_append. Qed.

Lemma contains_refl (x : string) : str_contains x x = true.
Proof. rewrite <- (append_empty_r x) at 2. apply contains_here. Qed.

Lemma contains_skip (p x s : string) :
  str_contains x s = true -> str_contains x (p +:+ s) = true.
Proof.
  intros H; induction p as [|ch p IH]; [exact H |].
  rewrite append_cons, contains_unfold, IH. apply orb_true_r.
Qed.

Lemma contains_iff (x s : string) :
  str_contains x s = true <-> exists p q, s = p +:+ x +:+ q.
Proof.
  split.
  - induction s as [|ch s IH]; rewrite contains_unfold; intros H.
    + rewrite orb_false_r in H. apply prefix_split in H as [q ->].
      by exists "", q.
    + apply orb_true_iff in H as [H|H].
      * apply prefix_split in H as [q ->]. by exists "", q.
      * destruct (IH H) as (p & q & ->). by exists (String ch p), q.
  - intros (p & q & ->). apply contains_skip, contains_here.
Qed.

Lemma contains_app_l (x s q : string) :
  str_contains x s = true -> str_contains x (s +:+ q) = true.
Proof.
  rewrite !contains_iff. intros (p & r & ->).
  exists p, (r +:+ q). by rewrite !append_assoc.
Qed.

Lemma contains_trans (x y s : string) :
  str_contains x y = true -> str_contains y s = true -> str_contains x s = true.
Proof.
  rewrite !contains_iff. intros (p & q & ->) (p' & q' & ->).
  exists (p' +:+ p), (q +:+ q'). by rewrite !append_assoc.
Qed.

Lemma join_contains (sep x : string) (l : list string) :
  In x l -> str_contains x (str_join sep l) = true.
Proof.
  induction l as [|y l IH]; [intros [] |].
  intros [->|Hin].
  - destruct l; [apply contains_refl | apply contains_here].
  - destruct l as [|z l]; [destruct Hin |].
    change (str_join sep (y :: z :: l))
      with (y +:+ sep +:+ str_join sep (z :: l)).
    by apply contains_skip, contains_skip, IH.
Qed.

Lemma bullet_contains (step : string) : str_contains step (bullet step) = true.
Proof. apply (contains_skip "- "), contains_refl. Qed.

Lemma steps_str_contains (c : PromptCanvas) (step : string) :
  In step (default [] (steps c)) -> str_contains step (steps_str c) = true.
Proof.
  unfold steps_str. destruct (steps c) as [[|y l]|]; intros Hin;
    try (by destruct Hin).
  apply contains_trans with (bullet step).
  - apply bullet_contains.
  - apply join_contains, in_map, Hin.
Qed.

Lemma references_str_contains (c : PromptCanvas) (r : string) :
  In r (default [] (references c)) -> str_contains r (references_str c) = true.
Proof.
  unfold references_str. destruct (references c) as [[|y l]|]; intros Hin;
    try (by destruct Hin).
  by apply join_contains.
Qed.

Lemma craft_is_template (c : PromptCanvas) (prompt : string) :
  craft_system_message (Some c) prompt
  = template c (steps_str c) (references_str c).
Proof. reflexivity. Qed.

(** Walks down a right-nested concatenation to the slot that holds the
    wanted text. *)
Ltac find_slot :=
  repeat first
    [ apply contains_refl
    | apply contains_here
    | apply contains_app_l; eassumption
    | apply contains_skip ].

(** ** The rendered message *)

(** C1. The message rendered from a canvas contains, verbatim, persona,
    audience, task, every element of steps, context, every element of
    references, output_format and tonality. *)
Theorem craft_system_message_contains_fields (c : PromptCanvas) (prompt : string) :
  let msg := craft_system_message (Some c) prompt in
  str_contains (persona c) msg = true
  /\ str_contains (audience c) msg = true
  /\ str_contains (task c) msg = true
  /\ Forall (fun step => str_contains step msg = true) (default [] (steps c))
  /\ str_contains (context c) msg = true
  /\ Forall (fun r => str_contains r msg = true) (default [] (references c))
  /\ str_contains (output_format c) msg = true
  /\ str_contains (tonality c) msg = true.
Proof.
  intros msg; subst msg; rewrite craft_is_template; unfold template.
  repeat split; try (rewrite Forall_forall; intros x Hx%list_elem_of_In).
  all: try (apply steps_str_contains in Hx).
  all: try (apply references_str_contains in Hx).
  all: find_slot.
Qed.

(** An empty [str] field, by contrast, leaves its slot blank. *)
Example empty_persona_renders_blank :
  str_contains "You are a  focused on"
    (craft_system_message (Some (mkPromptCanvas "" "" "" None "" None "" "")) "")
  = true.
Proof. reflexivity. Qed.

(** C2. The optional fields are the two declared [Optional[...]], steps and
    references.  When such a field is empty ([None] or the empty list), its
    slot of the message holds the fixed text [None]. *)
Theorem empty_optional_renders_None (c : PromptCanvas) (prompt : string) :
  (falsy (steps c) = true ->
     steps_str c = "None"
     /\ craft_system_message (Some c) prompt
        = template c "None" (references_str c))
  /\ (falsy (references c) = true ->
        references_str c = "None"
        /\ craft_system_message (Some c) prompt
           = template c (steps_str c) "None").
Proof.
  rewrite craft_is_template. unfold steps_str, references_str.
  split; intros H.
  - destruct (steps c) as [[|? ?]|]; try discriminate; by split.
  - destruct (references c) as [[|? ?]|]; try discriminate; by split.
Qed.

Lemma empty_optional_renders_None_witness :
  let c := mkPromptCanvas "writer" "devs" "explain" None "ctx" (Some []) "Code" "dry" in
  (steps_str c = "None"
   /\ craft_system_message (Some c) "p" = template c "None" (references_str c))
  /\ (references_str c = "None"
      /\ craft_system_message (Some c) "p" = template c (steps_str c) "None").
Proof.
  intros c.
  split;
    [ apply (proj1 (empty_optional_renders_None c "p"))
    | apply (proj2 (empty_optional_renders_None c "p")) ];
    reflexivity.
Defined.

(** ** The record declaration *)

Lemma PromptCanvas_ext (c1 c2 : PromptCanvas) :
  (forall f, field_value f c1 = field_value f c2) -> c1 = c2.
Proof.
  intros H. destruct c1, c2.
  pose proof (H f_persona); pose proof (H f_audience); pose proof (H f_task);
    pose proof (H f_steps); pose proof (H f_context);
    pose proof (H f_references); pose proof (H f_output_format);
    pose proof (H f_tonality).
  simpl in *. congruence.
Qed.

(** C5, as amended.  The record has exactly eight fields; six of them are
    strings and two, steps and references, are optional ordered sequences
    of strings. *)
Theorem PromptCanvas_has_eight_fields :
  length fields = 8%nat
  /\ NoDup fields
  /\ (forall f : field, In f fields)
  /\ List.filter is_str fields
     = [f_persona; f_audience; f_task; f_context; f_output_format; f_tonality]
  /\ length (List.filter is_str fields) = 6%nat
  /\ List.filter is_sequence fields = [f_steps; f_references]
  /\ length (List.filter is_sequence fields) = 2%nat.
Proof.
  repeat split; try reflexivity.
  - compute_done.
  - intros []; simpl; tauto.
Qed.

(** The count of the claim, seven strings, does not hold: seven and two
    do not even add up to eight. *)
Lemma PromptCanvas_not_seven_strings :
  ~ (length fields = 8%nat
     /\ length (List.filter is_str fields) = 7%nat
     /\ length (List.filter is_sequence fields) = 2%nat).
Proof. intros (_ & H & _). vm_compute in H. discriminate. Qed.

(** ** Steps, line by line *)

Lemma split_char_cons (sep ch : ascii) (s : string) :
  split_char sep (String ch s)
  = if Ascii.eqb ch sep then EmptyString :: split_char sep s
    else match split_char sep s with
         | [] => [String ch EmptyString]
         | h :: t => String ch h :: t
         end.
Proof. reflexivity. Qed.

Lemma split_lines_single (s : string) :
  has_newline s = false -> split_lines s = [s].
Proof.
  unfold split_lines.
  induction s as [|ch s IH]; [reflexivity |]; simpl has_newline.
  intros [Hch Hs]%orb_false_iff.
  by rewrite split_char_cons, Hch, (IH Hs).
Qed.

Lemma split_lines_first (s t : string) :
  has_newline s = false ->
  split_lines (s +:+ nl +:+ t) = s :: split_lines t.
Proof.
  unfold split_lines.
  induction s as [|ch s IH]; [reflexivity |]; simpl has_newline.
  intros [Hch Hs]%orb_false_iff.
  by rewrite append_cons, split_char_cons, Hch, (IH Hs).
Qed.

Lemma split_lines_join (l : list string) :
  l <> [] -> Forall (fun s => has_newline s = false) l ->
  split_lines (str_join nl l) = l.
Proof.
  induction l as [|x l IH]; [done |].
  intros _ Hall. inversion_clear Hall as [|? ? Hx Hl].
  destruct l as [|y l].
  - by apply split_lines_single.
  - change (str_join nl (x :: y :: l)) with (x +:+ nl +:+ str_join nl (y :: l)).
    rewrite split_lines_first by done. f_equal. by apply IH.
Qed.

Lemma has_newline_bullet (s : string) : has_newline (bullet s) = has_newline s.
Proof. reflexivity. Qed.

Lemma steps_block_lines (c : PromptCanvas) (l : list string) :
  steps c = Some l -> l <> [] ->
  Forall (fun step => has_newline step = false) l ->
  steps_str c = str_join nl (map bullet l)
  /\ split_lines (steps_str c) = map bullet l.
Proof.
  intros Hsteps Hne Hall.
  assert (steps_str c = str_join nl (map bullet l)) as Hblock.
  { unfold steps_str. rewrite Hsteps. by destruct l. }
  split; [exact Hblock |]. rewrite Hblock.
  apply split_lines_join.
  - by destruct l.
  - rewrite Forall_map. eapply Forall_impl; [exact Hall |].
    intros step H. by rewrite has_newline_bullet.
Qed.

(** C7, as amended.  When steps is non-empty and no step has a line feed
    in it, the lines of the steps block are the steps, each behind its
    dash, in the order of the field; the block sits in the message under
    the heading. *)
Theorem steps_rendered_one_per_line
    (c : PromptCanvas) (l : list string) (prompt : string) :
  steps c = Some l -> l <> [] ->
  Forall (fun step => has_newline step = false) l ->
  split_lines (steps_str c) = map bullet l
  /\ craft_system_message (Some c) prompt
     = template c (str_join nl (map bullet l)) (references_str c).
Proof.
  intros Hsteps Hne Hall.
  destruct (steps_block_lines c l Hsteps Hne Hall) as [Hblock Hlines].
  split; [exact Hlines |]. by rewrite craft_is_template, Hblock.
Qed.

Lemma steps_rendered_one_per_line_witness :
  split_lines (steps_str demo) = ["- one"; "- two"]
  /\ craft_system_message (Some demo) "p"
     = template demo (str_join nl ["- one"; "- two"]) (references_str demo).
Proof.
  apply (steps_rendered_one_per_line demo ["one"; "two"] "p").
  - reflexivity.
  - discriminate.
  - repeat constructor.
Defined.

(** A step with a line feed in it takes two lines, and two different
    sequences of steps render alike: the claim fails without the
    restriction. *)
Lemma step_with_newline_takes_two_lines :
  let l := ["a" +:+ nl +:+ "- b"] in
  let c := mkPromptCanvas "" "" "" (Some l) "" None "" "" in
  steps c = Some l /\ l <> []
  /\ split_lines (steps_str c) = ["- a"; "- b"]
  /\ split_lines (steps_str c) <> map bullet l
  /\ craft_system_message (Some c) ""
     = craft_system_message
         (Some (mkPromptCanvas "" "" "" (Some ["a"; "b"]) "" None "" "")) "".
Proof. repeat split; discriminate. Qed.

(** The steps the form produces never have a line feed in them: the text
    area is cut at line feeds. *)
Lemma split_lines_no_newline (s : string) :
  Forall (fun line => has_newline line = false) (split_lines s).
Proof.
  unfold split_lines.
  induction s as [|ch s IH]; [by repeat constructor |].
  rewrite split_char_cons.
  destruct (Ascii.eqb ch "010") eqn:Hch; [by constructor |].
  destruct (split_char "010" s) as [|h t].
  - repeat constructor. simpl. by rewrite Hch.
  - inversion_clear IH as [|? ? Hh Ht]. constructor; [| done].
    simpl. by rewrite Hch, Hh.
Qed.

Lemma lstrip_no_newline (s : string) :
  has_newline s = false -> has_newline (lstrip s) = false.
Proof.
  induction s as [|ch s IH]; [done |]; simpl lstrip.
  destruct (isspace ch); [| done].
  simpl. intros [_ Hs]%orb_false_iff. by apply IH.
Qed.

Lemma rstrip_no_newline (s : string) :
  has_newline s = false -> has_newline (rstrip s) = false.
Proof.
  induction s as [|ch s IH]; [done |].
  simpl. intros [Hch Hs]%orb_false_iff. specialize (IH Hs).
  destruct (rstrip s) as [|c r].
  - destruct (isspace ch); simpl; [done | by rewrite Hch].
  - change (has_newline (String ch (String c r)))
      with (Ascii.eqb ch "010" || has_newline (String c r)).
    by rewrite Hch, IH.
Qed.

Lemma nonblank_lines_no_newline (text : string) :
  Forall (fun step => has_newline step = false) (nonblank_lines text).
Proof.
  unfold nonblank_lines. rewrite Forall_map, Forall_forall.
  intros line [Hin _]%list_elem_of_In%filter_In.
  unfold strip. apply rstrip_no_newline, lstrip_no_newline.
  pose proof (split_lines_no_newline text) as Hall.
  rewrite Forall_forall in Hall. by apply Hall, list_elem_of_In.
Qed.

(** ** [strip] removes the white space at both ends and nothing else *)

Lemma lstrip_spec (s : string) :
  exists a, s = a +:+ lstrip s
            /\ all_space a = true
            /\ starts_with_space (lstrip s) = false.
Proof.
  induction s as [|ch s (a & Hs & Ha & Hnot)].
  - by exists "".
  - simpl lstrip. destruct (isspace ch) eqn:Hch.
    + exists (String ch a). rewrite append_cons, <- Hs.
      repeat split; [| done]. simpl. by rewrite Hch, Ha.
    + exists "". by repeat split.
Qed.

Lemma rstrip_spec (s : string) :
  exists b, s = rstrip s +:+ b
            /\ all_space b = true
            /\ ends_with_space (rstrip s) = false
            /\ (starts_with_space s = false ->
                starts_with_space (rstrip s) = false).
Proof.
  induction s as [|ch s (b & Hs & Hb & Hend & _)].
  - by exists "".
  - simpl rstrip. destruct (rstrip s) as [|c r] eqn:Hr.
    + rewrite append_nil in Hs. subst b.
      destruct (isspace ch) eqn:Hch.
      * exists (String ch s). repeat split; simpl; try done.
        by rewrite Hch, Hb.
      * exists s. by repeat split.
    + exists b. rewrite append_cons, <- Hs. by repeat split.
Qed.

Lemma strip_spec (t : string) : stripped_form t (strip t).
Proof.
  destruct (lstrip_spec t) as (a & Ht & Ha & Hstart).
  destruct (rstrip_spec (lstrip t)) as (b & Hl & Hb & Hend & Hkeep).
  exists a, b. unfold strip.
  rewrite <- Hl, <- Ht. repeat split; auto.
Qed.

(** ** Running the program on objects *)

Lemma fmap_Some_eq {A B} (f : A -> B) (a : A) : f <$> Some a = Some (f a).
Proof. reflexivity. Qed.

Section Runs.
Context {sdk : GroqSDK}.

Lemma deref_same_heap (s s' : state) (canvas : option loc) :
  heap s' = heap s -> deref s' canvas = deref s canvas.
Proof. intros H. destruct canvas; simpl; by rewrite ?H. Qed.

Lemma bind_getattr {A B} (l : loc) (f : PromptCanvas -> A) (k : A -> M B)
    (s : state) (c : PromptCanvas) :
  heap s !! l = Some c -> (getattr l f ≫= k) s = k (f c) s.
Proof. intros H. unfold mbind, M_bind, getattr. by rewrite H. Qed.

Lemma bind_ok {A B} (m : M A) (k : A -> M B) (s s' : state) (a : A) :
  m s = (Ok a, s') -> (m ≫= k) s = k a s'.
Proof. intros H. unfold mbind, M_bind. by rewrite H. Qed.

Lemma steps_str_run (l : loc) (s : state) (c : PromptCanvas) :
  heap s !! l = Some c -> Obj.steps_str l s = (Ok (steps_str c), s).
Proof.
  intros Hl. unfold Obj.steps_str, steps_str.
  rewrite (bind_getattr _ _ _ _ _ Hl).
  destruct (steps c) as [[|x xs]|] eqn:Hsteps; try reflexivity.
  rewrite (bind_getattr _ _ _ _ _ Hl), Hsteps. reflexivity.
Qed.

Lemma references_str_run (l : loc) (s : state) (c : PromptCanvas) :
  heap s !! l = Some c -> Obj.references_str l s = (Ok (references_str c), s).
Proof.
  intros Hl. unfold Obj.references_str, references_str.
  rewrite (bind_getattr _ _ _ _ _ Hl).
  destruct (references c) as [[|x xs]|] eqn:Hrefs; try reflexivity.
  rewrite (bind_getattr _ _ _ _ _ Hl), Hrefs. reflexivity.
Qed.

(** Rendering from an object reads the fields and yields what the
    rendering on values yields; the state stays as it was. *)
Lemma craft_system_message_run
    (canvas : option loc) (prompt : string) (s : state) :
  Obj.craft_system_message canvas prompt s
  = (match deref s canvas with
     | Some v => Ok (craft_system_message v prompt)
     | None => Raise dangling
     end, s).
Proof.
  destruct canvas as [l|]; [| reflexivity].
  unfold Obj.craft_system_message, deref.
  destruct (heap s !! l) as [c|] eqn:Hl.
  - rewrite (bind_ok _ _ _ _ _ (steps_str_run _ _ _ Hl)).
    rewrite (bind_ok _ _ _ _ _ (references_str_run _ _ _ Hl)).
    repeat (rewrite (bind_getattr _ _ _ _ _ Hl); cbn beta).
    reflexivity.
  - unfold Obj.steps_str, mbind, M_bind, getattr. by rewrite Hl.
Qed.

(** The whole of [rephrase_prompt], case by case. *)
Lemma rephrase_prompt_run (prompt model : string) (temperature : float)
    (max_tokens : Z) (canvas : option loc) (s : state) :
  Obj.rephrase_prompt prompt model temperature max_tokens canvas s
  = match Groq (world s) with
    | (Raise e, w) => (Raise (generic_error e), mkState (heap s) w (sent s))
    | (Ok groq, w) =>
        match deref s canvas with
        | None =>
            (Raise (generic_error dangling), mkState (heap s) w (sent s))
        | Some v =>
            let req := request_with (craft_system_message v prompt)
                         model temperature max_tokens in
            match chat_completions_create groq req w with
            | (Raise e, w') =>
                (Raise (generic_error e),
                 mkState (heap s) w' (sent s ++ [req]))
            | (Ok response, w') =>
                (read_reply response, mkState (heap s) w' (sent s ++ [req]))
            end
        end
    end.
Proof.
  unfold Obj.rephrase_prompt, try_except, mbind, M_bind, Groq_new.
  destruct (Groq (world s)) as [[groq|e] w]; [| reflexivity].
  rewrite craft_system_message_run.
  rewrite (deref_same_heap s) by reflexivity.
  destruct (deref s canvas) as [v|]; [| reflexivity].
  unfold create, request_with; simpl.
  destruct (chat_completions_create _ _ w) as [[response|e] w'];
    [| reflexivity].
  unfold read_reply, index0, strip_method.
  destruct (Response.choices response) as [|choice rest]; [reflexivity |].
  simpl. by destruct (Response.content (Response.message choice)).
Qed.

(** No client, no request. *)
Lemma no_client_no_request (prompt model : string) (temperature : float)
    (max_tokens : Z) (canvas : option loc) (s : state) (e : exn) (w : World) :
  Groq (world s) = (Raise e, w) ->
  sent (snd (Obj.rephrase_prompt prompt model temperature max_tokens canvas s))
  = sent s.
Proof. intros H. by rewrite rephrase_prompt_run, H. Qed.

Lemma read_reply_generic (response : Response.ChatCompletion) (e : exn) :
  read_reply response = Raise e ->
  exn_class e = "Exception"
  /\ String.prefix "Prompt engineering error: " (exn_str e) = true.
Proof.
  unfold read_reply.
  destruct (Response.choices response) as [|choice rest].
  - intros [= <-]. by split.
  - destruct (Response.content (Response.message choice));
      [discriminate |]. intros [= <-]. by split.
Qed.

Lemma generic_error_generic (e : exn) :
  exn_class (generic_error e) = "Exception"
  /\ String.prefix "Prompt engineering error: " (exn_str (generic_error e))
     = true.
Proof. split; [reflexivity |]. apply prefix_append. Qed.

(** Whatever fails inside [rephrase_prompt], one kind of error comes out. *)
Lemma rephrase_prompt_raises_generic (prompt model : string)
    (temperature : float) (max_tokens : Z) (canvas : option loc)
    (s : state) (e : exn) :
  fst (Obj.rephrase_prompt prompt model temperature max_tokens canvas s)
  = Raise e ->
  exn_class e = "Exception"
  /\ String.prefix "Prompt engineering error: " (exn_str e) = true.
Proof.
  rewrite rephrase_prompt_run.
  destruct (Groq (world s)) as [[groq|e0] w];
    [| intros [= <-]; apply generic_error_generic].
  destruct (deref s canvas) as [v|];
    [| intros [= <-]; apply generic_error_generic].
  simpl.
  destruct (chat_completions_create _ _ w) as [[response|e0] w'];
    [apply read_reply_generic | intros [= <-]; apply generic_error_generic].
Qed.

Lemma rephrase_prompt_heap (prompt model : string) (temperature : float)
    (max_tokens : Z) (canvas : option loc) (s : state) :
  heap (snd (Obj.rephrase_prompt prompt model temperature max_tokens canvas s))
  = heap s.
Proof.
  rewrite rephrase_prompt_run.
  destruct (Groq (world s)) as [[groq|e0] w]; [| reflexivity].
  destruct (deref s canvas) as [v|]; [| reflexivity].
  simpl. by destruct (chat_completions_create _ _ w) as [[response|e0] w'].
Qed.
End Runs.

(** ** The constructor of the form's canvas *)

Section Constructor.
Context {sdk : GroqSDK}.

(** [PromptCanvas(...)] makes one new object, with [None] in steps or
    references replaced by the empty list, and touches nothing else. *)
Lemma new_PromptCanvas_run (persona audience task : string)
    (steps : option (list string)) (context : string)
    (references : option (list string)) (output_format tonality : string)
    (s : state) :
  App.new_PromptCanvas persona audience task steps context references
    output_format tonality s
  = (Ok (fresh (dom (heap s))),
     mkState
       (<[fresh (dom (heap s)) :=
            mkPromptCanvas persona audience task (Some (default [] steps))
              context (Some (default [] references)) output_format tonality]>
          (heap s))
       (world s) (sent s)).
Proof.
  unfold App.new_PromptCanvas, App.__post_init__, alloc, mbind, M_bind,
    mret, M_ret, getattr, setattr.
  destruct steps as [xs|], references as [rs|];
    repeat first
      [ progress simpl
      | rewrite lookup_insert_eq
      | rewrite insert_insert_eq ];
    reflexivity.
Qed.

Lemma fresh_not_in_heap (s : state) : heap s !! fresh (dom (heap s)) = None.
Proof. apply not_elem_of_dom, is_fresh. Qed.
End Constructor.

(** ** The advanced mode of the form *)

Section Form.
Context {sdk : GroqSDK}.

(** The canvas of the advanced mode holds the non-blank lines of the two
    text areas, and still does when the request is over, however it
    ended. *)
Lemma advanced_mode_canvas (persona audience task steps_text context
    references_text output_format tonality canvas_prompt model : string)
    (temperature : float) (max_tokens : Z) (s : state) :
  heap (snd (App.advanced_mode persona audience task steps_text context
               references_text output_format tonality canvas_prompt model
               temperature max_tokens s))
    !! fresh (dom (heap s))
  = Some (mkPromptCanvas persona audience task
            (Some (nonblank_lines steps_text)) context
            (Some (nonblank_lines references_text)) output_format tonality).
Proof.
  unfold App.advanced_mode.
  rewrite (bind_ok _ _ _ _ _ (new_PromptCanvas_run _ _ _ _ _ _ _ _ s)).
  unfold mbind, M_bind, mret, M_ret.
  match goal with
  | |- context [Obj.rephrase_prompt ?p ?m ?t ?k ?c ?s1] =>
      pose proof (rephrase_prompt_heap p m t k c s1) as Hheap;
      destruct (Obj.rephrase_prompt p m t k c s1) as [[out|e] s2]
  end; simpl in *; rewrite Hheap; apply lookup_insert_eq.
Qed.

(** X6. Steps that come from the form are rendered one per line: when the
    steps text area has an entry, the lines of the steps block are its
    entries, each behind its dash, in the order typed. *)
Lemma form_steps_one_per_line (c : PromptCanvas) (steps_text : string) :
  steps c = Some (nonblank_lines steps_text) ->
  nonblank_lines steps_text <> [] ->
  split_lines (steps_str c) = map bullet (nonblank_lines steps_text).
Proof.
  intros Hsteps Hne.
  apply (steps_block_lines c _ Hsteps Hne), nonblank_lines_no_newline.
Qed.
End Form.

(** ** The request and its failure *)

Section Request.
Context {sdk : GroqSDK}.

(** C3. An exception raised by the remote call is raised again as the
    one generic [Exception] whose text is the prefix followed by the
    text of the cause; and no call of [rephrase_prompt], whatever failed
    inside it, raises anything of another class or without the prefix. *)
Theorem remote_failure_reraised_generic (prompt model : string)
    (temperature : float) (max_tokens : Z) (canvas : option loc)
    (s : state) (groq : Client) (w w' : World)
    (v : option PromptCanvas) (e : exn) :
  Groq (world s) = (Ok groq, w) ->
  deref s canvas = Some v ->
  chat_completions_create groq
    (request_with (craft_system_message v prompt) model temperature
       max_tokens) w
  = (Raise e, w') ->
  fst (Obj.rephrase_prompt prompt model temperature max_tokens canvas s)
  = Raise (mkExn "Exception" ("Prompt engineering error: " +:+ exn_str e))
  /\ (forall prompt0 model0 temperature0 max_tokens0 canvas0 s0 e0,
        fst (Obj.rephrase_prompt prompt0 model0 temperature0 max_tokens0
               canvas0 s0) = Raise e0 ->
        exn_class e0 = "Exception"
        /\ String.prefix "Prompt engineering error: " (exn_str e0) = true).
Proof.
  intros Hclient Hcanvas Hcall. split.
  - rewrite rephrase_prompt_run, Hclient, Hcanvas. simpl.
    by rewrite Hcall.
  - intros *. apply rephrase_prompt_raises_generic.
Qed.

(** C4. Whatever the arguments and the state, [rephrase_prompt] hands
    the SDK at most one request, and a request it sends has as its
    messages the single message whose content is
    [craft_system_message(canvas, prompt)], beside the model, temperature
    and max_tokens given.  When the call returns [out], that request was
    sent and answered, and [out] is the stripped content of the first
    choice: the text less the white space at its two ends.  Conversely
    such an answer makes the call return. *)
Theorem one_message_sent_reply_stripped (prompt model : string)
    (temperature : float) (max_tokens : Z) (canvas : option loc) (s : state) :
  let run := Obj.rephrase_prompt prompt model temperature max_tokens
               canvas s in
  let req v :=
    mkChatRequest [mkChatMessage "user" (craft_system_message v prompt)]
      model temperature max_tokens in
  (sent (snd run) = sent s
   \/ exists v, deref s canvas = Some v
                /\ sent (snd run) = (sent s ++ [req v])%list)
  /\ (forall out,
        fst run = Ok out ->
        exists v groq w response w' choice rest text,
          deref s canvas = Some v
          /\ Groq (world s) = (Ok groq, w)
          /\ sent (snd run) = (sent s ++ [req v])%list
          /\ chat_completions_create groq (req v) w = (Ok response, w')
          /\ Response.choices response = choice :: rest
          /\ Response.content (Response.message choice) = Some text
          /\ out = strip text
          /\ stripped_form text out)
  /\ (forall v groq w response w' choice rest text,
        deref s canvas = Some v ->
        Groq (world s) = (Ok groq, w) ->
        chat_completions_create groq (req v) w = (Ok response, w') ->
        Response.choices response = choice :: rest ->
        Response.content (Response.message choice) = Some text ->
        run = (Ok (strip text),
               mkState (heap s) w' (sent s ++ [req v]))).
Proof.
  intros run req. subst run req. rewrite rephrase_prompt_run.
  unfold request_with. cbn beta zeta.
  split; [| split].
  - destruct (Groq (world s)) as [[groq|e] w]; [| by left].
    destruct (deref s canvas) as [v|]; [| by left].
    right. exists v. split; [reflexivity |]. simpl.
    by destruct (chat_completions_create _ _ w) as [[?|?] ?].
  - intros out.
    destruct (Groq (world s)) as [[groq|e] w]; [| discriminate].
    destruct (deref s canvas) as [v|]; [| discriminate].
    simpl.
    destruct (chat_completions_create _ _ w) as [[response|e] w'] eqn:Hcall;
      [| discriminate].
    simpl. unfold read_reply.
    destruct (Response.choices response) as [|choice rest] eqn:Hch;
      [discriminate |].
    destruct (Response.content (Response.message choice)) as [text|]
      eqn:Htext; [| discriminate].
    intros [= <-].
    exists v, groq, w, response, w', choice, rest, text.
    repeat split; try done. apply strip_spec.
  - intros v groq w response w' choice rest text -> -> Hcall Hch Htext.
    simpl. rewrite Hcall. unfold read_reply. by rewrite Hch, Htext.
Qed.

(** C8. Neither rendering nor the whole request writes to a canvas:
    rendering leaves the state as it was, and after [rephrase_prompt],
    whether it returned or raised, the store of objects is the one
    before the call, so each of the eight fields of every canvas reads
    as before. *)
Theorem canvas_unchanged_by_request (prompt model : string)
    (temperature : float) (max_tokens : Z) (canvas : option loc)
    (s : state) :
  let after :=
    snd (Obj.rephrase_prompt prompt model temperature max_tokens canvas s) in
  snd (Obj.craft_system_message canvas prompt s) = s
  /\ heap after = heap s
  /\ forall (l : loc) (f : field),
       field_value f <$> heap after !! l = field_value f <$> heap s !! l.
Proof.
  intros after. subst after. repeat split.
  - by rewrite craft_system_message_run.
  - apply rephrase_prompt_heap.
  - intros l f. by rewrite rephrase_prompt_heap.
Qed.

(** C9. With a canvas, the prompt argument has no part in the result:
    the rendered message is the same for any two prompts, and so is the
    whole run of [rephrase_prompt], the request it sends included. *)
Theorem canvas_mode_ignores_prompt (c : PromptCanvas) (l : loc)
    (prompt1 prompt2 model : string) (temperature : float) (max_tokens : Z)
    (s : state) :
  craft_system_message (Some c) prompt1 = craft_system_message (Some c) prompt2
  /\ Obj.craft_system_message (Some l) prompt1 s
     = Obj.craft_system_message (Some l) prompt2 s
  /\ Obj.rephrase_prompt prompt1 model temperature max_tokens (Some l) s
     = Obj.rephrase_prompt prompt2 model temperature max_tokens (Some l) s.
Proof.
  split; [reflexivity |]. split.
  - rewrite !craft_system_message_run. simpl. by destruct (heap s !! l).
  - rewrite !rephrase_prompt_run.
    destruct (Groq (world s)) as [[groq|e] w]; [| reflexivity].
    simpl. by destruct (heap s !! l).
Qed.

(** C10. The constructor returns a new object whose steps and
    references are lists, the empty list standing in for [None], and
    the request the form then makes leaves them so. *)
Theorem new_PromptCanvas_has_lists (persona audience task : string)
    (steps_arg : option (list string)) (context : string)
    (references_arg : option (list string)) (output_format tonality : string)
    (s : state) :
  let run := App.new_PromptCanvas persona audience task steps_arg context
               references_arg output_format tonality s in
  let c := mkPromptCanvas persona audience task (Some (default [] steps_arg))
             context (Some (default [] references_arg)) output_format
             tonality in
  exists self,
    fst run = Ok self
    /\ heap s !! self = None
    /\ heap (snd run) !! self = Some c
    /\ is_Some (steps c) /\ is_Some (references c)
    /\ forall prompt model temperature max_tokens canvas,
         heap (snd (Obj.rephrase_prompt prompt model temperature max_tokens
                      canvas (snd run))) !! self = Some c.
Proof.
  intros run c. subst run. rewrite new_PromptCanvas_run. simpl.
  exists (fresh (dom (heap s))). repeat split.
  - apply fresh_not_in_heap.
  - apply lookup_insert_eq.
  - by eexists.
  - by eexists.
  - intros *. rewrite rephrase_prompt_heap. apply lookup_insert_eq.
Qed.
End Request.

Lemma remote_failure_reraised_generic_witness :
  fst (@Obj.rephrase_prompt stub_sdk "hello" "m" half 10%Z
         (Some 1%positive) (demo_state Unreachable))
  = Raise (mkExn "Exception" "Prompt engineering error: Connection error.").
Proof.
  apply (@remote_failure_reraised_generic stub_sdk "hello" "m" half 10%Z
           (Some 1%positive) (demo_state Unreachable) tt
           Unreachable Unreachable (Some demo)
           (mkExn "APIConnectionError" "Connection error.")).
  - reflexivity.
  - reflexivity.
  - reflexivity.
Defined.

Lemma one_message_sent_reply_stripped_witness :
  let s := demo_state (Answers ("  hi there " +:+ nl +:+ " ")) in
  @Obj.rephrase_prompt stub_sdk "hello" "m" half 10%Z (Some 1%positive) s
  = (Ok "hi there",
     mkState (heap s) (world s)
       [mkChatRequest
          [mkChatMessage "user" (craft_system_message (Some demo) "hello")]
          "m" half 10%Z]).
Proof.
  intros s.
  apply (proj2 (proj2 (@one_message_sent_reply_stripped stub_sdk "hello" "m"
                         half 10%Z (Some 1%positive) s))
           (Some demo) tt (world s)
           (Response.mkChatCompletion
              [Response.mkChoice
                 (Response.mkMessage (Some ("  hi there " +:+ nl +:+ " ")))])
           (world s)
           (Response.mkChoice
              (Response.mkMessage (Some ("  hi there " +:+ nl +:+ " "))))
           [] ("  hi there " +:+ nl +:+ " ")).
  - reflexivity.
  - reflexivity.
  - reflexivity.
  - reflexivity.
  - reflexivity.
Defined.

(** ** Determinism *)

(** C6. Two invocations of the renderer whose canvas arguments are equal
    (both [None], or objects with equal fields) and whose prompts are
    equal return equal strings, whatever else differs between the two
    states: the references, the other objects, the outside world, the
    requests sent before, the SDK. *)
Theorem rendering_deterministic (sdk1 sdk2 : GroqSDK)
    (s1 : @state sdk1) (s2 : @state sdk2) (canvas1 canvas2 : option loc)
    (prompt1 prompt2 : string) :
  deref s1 canvas1 = deref s2 canvas2 ->
  prompt1 = prompt2 ->
  fst (Obj.craft_system_message canvas1 prompt1 s1)
  = fst (Obj.craft_system_message canvas2 prompt2 s2).
Proof.
  intros Hcanvas ->. rewrite !craft_system_message_run. simpl.
  by rewrite Hcanvas.
Qed.

Lemma rendering_deterministic_witness :
  fst (Obj.craft_system_message (Some 1%positive) "p"
         (demo_state (Answers "x")))
  = fst (Obj.craft_system_message (Some 5%positive) "p" other_state).
Proof.
  apply (rendering_deterministic stub_sdk stub_sdk (demo_state (Answers "x"))
           other_state (Some 1%positive) (Some 5%positive) "p" "p").
  - reflexivity.
  - reflexivity.
Defined.

(** * Further properties of the code *)

(** ** More on strings *)

Lemma append_cancel_r (a b t : string) : a +:+ t = b +:+ t -> a = b.
Proof.
  assert (forall x y : string,
            String.length (x +:+ y) = (String.length x + String.length y)%nat)
    as Hlen.
  { intros x y. induction x as [|ch x IH]; [reflexivity |].
    rewrite append_cons. simpl. by rewrite IH. }
  revert b; induction a as [|ch a IH]; intros [|ch' b] H.
  - reflexivity.
  - apply (f_equal String.length) in H. rewrite append_nil, Hlen in H.
    simpl in H. lia.
  - apply (f_equal String.length) in H. rewrite append_nil, Hlen in H.
    simpl in H. lia.
  - rewrite !append_cons in H. injection H as -> H. f_equal. by apply IH.
Qed.

Lemma all_space_app (a b : string) :
  all_space (a +:+ b) = all_space a && all_space b.
Proof.
  induction a as [|ch a IH]; [reflexivity |].
  rewrite append_cons. simpl. by rewrite IH, andb_assoc.
Qed.

Lemma lstrip_all_space (s : string) : all_space s = true -> lstrip s = "".
Proof.
  induction s as [|ch s IH]; [done |]. simpl.
  intros [Hch Hs]%andb_true_iff. rewrite Hch. by apply IH.
Qed.

Lemma strip_all_space (s : string) : all_space s = true <-> strip s = "".
Proof.
  split.
  - intros H. unfold strip. by rewrite lstrip_all_space.
  - intros H. destruct (strip_spec s) as (a & b & Hs & Ha & Hb & _).
    rewrite H, append_nil in Hs. by rewrite Hs, all_space_app, Ha, Hb.
Qed.

Lemma lstrip_id (s : string) : starts_with_space s = false -> lstrip s = s.
Proof. destruct s as [|ch s]; [done |]. simpl. by intros ->. Qed.

Lemma rstrip_id (s : string) : ends_with_space s = false -> rstrip s = s.
Proof.
  induction s as [|ch s IH]; [done |].
  destruct s as [|c r].
  - simpl. by intros ->.
  - intros H. change (ends_with_space (String c r) = false) in H.
    change (rstrip (String ch (String c r)))
      with (match rstrip (String c r) with
            | EmptyString =>
                if isspace ch then EmptyString else String ch EmptyString
            | r' => String ch r'
            end).
    by rewrite (IH H).
Qed.

Lemma strip_id (s : string) :
  starts_with_space s = false -> ends_with_space s = false -> strip s = s.
Proof. intros Hs He. unfold strip. by rewrite (lstrip_id s Hs), rstrip_id. Qed.

Lemma str_truthy_false (s : string) : str_truthy s = false <-> s = "".
Proof. by destruct s. Qed.

Lemma split_char_nonempty (sep : ascii) (s : string) :
  exists h t, split_char sep s = h :: t.
Proof.
  destruct s as [|ch s]; [by eexists _, _ |].
  rewrite split_char_cons. destruct (Ascii.eqb ch sep); [by eexists _, _ |].
  destruct (split_char sep s); by eexists _, _.
Qed.

Lemma split_lines_app (a b : string) :
  split_lines (a +:+ nl +:+ b) = (split_lines a ++ split_lines b)%list.
Proof.
  unfold split_lines.
  induction a as [|ch a IH]; [reflexivity |].
  rewrite append_cons, !split_char_cons, IH.
  destruct (Ascii.eqb ch "010"); [reflexivity |].
  by destruct (split_char_nonempty "010" a) as (h & t & ->).
Qed.

Lemma all_space_lines (text : string) :
  all_space text = forallb all_space (split_lines text).
Proof.
  unfold split_lines.
  induction text as [|ch s IH]; [reflexivity |].
  rewrite split_char_cons. simpl all_space.
  destruct (Ascii.eqb ch "010") eqn:Hch.
  - apply Ascii.eqb_eq in Hch as ->. by rewrite IH.
  - destruct (split_char_nonempty "010" s) as (h & t & Hs).
    rewrite Hs in *. simpl in *. by rewrite IH, andb_assoc.
Qed.

(** The guard [if text and ...] of the comprehension never decides
    anything: the only line of the empty text is blank. *)
Lemma nonblank_lines_unguarded (text : string) :
  nonblank_lines text
  = map strip (List.filter (fun s => str_truthy (strip s)) (split_lines text)).
Proof.
  unfold nonblank_lines. by destruct text.
Qed.

Lemma nonblank_lines_single (x : string) :
  clean_line x = true -> nonblank_lines x = [x].
Proof.
  unfold clean_line.
  intros [[[Hne Hs%negb_true_iff]%andb_true_iff He%negb_true_iff]%andb_true_iff
           Hnl%negb_true_iff]%andb_true_iff.
  rewrite nonblank_lines_unguarded, (split_lines_single x Hnl).
  cbn [List.filter]. rewrite (strip_id x Hs He), Hne.
  cbn [map]. by rewrite (strip_id x Hs He).
Qed.

Lemma nonblank_lines_join (l : list string) :
  Forall (fun x => clean_line x = true) l ->
  nonblank_lines (str_join nl l) = l.
Proof.
  induction l as [|x l IH]; [done |].
  intros Hall. inversion_clear Hall as [|? ? Hx Hl].
  destruct l as [|y l]; [by apply nonblank_lines_single |].
  change (str_join nl (x :: y :: l)) with (x +:+ nl +:+ str_join nl (y :: l)).
  rewrite nonblank_lines_unguarded, split_lines_app, List.filter_app, map_app.
  rewrite <- !nonblank_lines_unguarded.
  by rewrite (nonblank_lines_single x Hx), (IH Hl).
Qed.

Lemma nonblank_lines_all_clean (text : string) :
  Forall (fun x => clean_line x = true) (nonblank_lines text).
Proof.
  pose proof (nonblank_lines_no_newline text) as Hnl.
  rewrite Forall_forall in Hnl. rewrite Forall_forall. intros x Hx.
  specialize (Hnl x Hx). revert Hx.
  rewrite nonblank_lines_unguarded, list_elem_of_In, in_map_iff.
  intros (line & <- & [_ Hne]%filter_In).
  destruct (strip_spec line) as (a & b & _ & _ & _ & Hs & He).
  unfold clean_line. by rewrite Hne, Hs, He, Hnl.
Qed.

Lemma blank_lines_filtered (lines : list string) :
  map strip (List.filter (fun s => str_truthy (strip s)) lines) = []
  <-> forallb all_space lines = true.
Proof.
  induction lines as [|x lines IH]; [done |]. simpl.
  destruct (str_truthy (strip x)) eqn:Hx.
  - split; [discriminate |]. intros [Hsp _]%andb_true_iff.
    apply strip_all_space in Hsp. by rewrite Hsp in Hx.
  - apply str_truthy_false, strip_all_space in Hx. by rewrite Hx, IH.
Qed.

(** ** The lines of a text area *)

(** X1. Every entry the form keeps from a text area is non-empty, has no
    white space at either end (stripping it again changes nothing) and has
    no line feed in it. *)
Theorem form_lines_are_clean (text : string) :
  Forall (fun x => x <> "" /\ strip x = x /\ has_newline x = false)
    (nonblank_lines text).
Proof.
  eapply Forall_impl; [apply nonblank_lines_all_clean |].
  intros x. unfold clean_line.
  intros [[[Hne Hs%negb_true_iff]%andb_true_iff He%negb_true_iff]%andb_true_iff
           Hnl%negb_true_iff]%andb_true_iff.
  repeat split; [| by apply strip_id | done].
  intros ->. discriminate.
Qed.

(** X2. A text area yields no entry at all exactly when the text is
    white space throughout, the empty text included. *)
Theorem form_lines_empty_iff_blank (text : string) :
  nonblank_lines text = [] <-> all_space text = true.
Proof.
  by rewrite nonblank_lines_unguarded, blank_lines_filtered, all_space_lines.
Qed.

(** X3. The entries of two texts put one under the other are the entries
    of the first followed by those of the second. *)
Theorem form_lines_of_stacked_texts (a b : string) :
  nonblank_lines (a +:+ nl +:+ b)
  = (nonblank_lines a ++ nonblank_lines b)%list.
Proof.
  by rewrite !nonblank_lines_unguarded, split_lines_app, List.filter_app,
    map_app.
Qed.

(** X4. Entries that are non-empty, stripped and free of line feeds,
    typed one per line, come back from the text area as they were. *)
Theorem form_lines_round_trip (l : list string) :
  Forall (fun x => x <> "" /\ strip x = x /\ has_newline x = false) l ->
  nonblank_lines (str_join nl l) = l.
Proof.
  intros Hall. apply nonblank_lines_join.
  eapply Forall_impl; [exact Hall |].
  intros x (Hne & Hstrip & Hnl).
  destruct (strip_spec x) as (a & b & _ & _ & _ & Hs & He).
  rewrite Hstrip in Hs, He. unfold clean_line. rewrite Hs, He, Hnl.
  by destruct x.
Qed.

Lemma form_lines_round_trip_witness :
  nonblank_lines (str_join nl ["plan the talk"; "write it"]) 
  = ["plan the talk"; "write it"].
Proof.
  apply (form_lines_round_trip ["plan the talk"; "write it"]).
  repeat constructor; discriminate.
Defined.

(** X5. Reading a text area is idempotent: the entries, typed back one
    per line, give the same entries. *)
Theorem form_lines_idempotent (text : string) :
  nonblank_lines (str_join nl (nonblank_lines text)) = nonblank_lines text.
Proof. apply nonblank_lines_join, nonblank_lines_all_clean. Qed.

Lemma form_steps_one_per_line_witness :
  let text := " plan " +:+ nl +:+ "  " +:+ nl +:+ "write" in
  let c := mkPromptCanvas "" "" "" (Some (nonblank_lines text)) "" None "" "" in
  split_lines (steps_str c) = ["- plan"; "- write"].
Proof.
  intros text c.
  apply (form_steps_one_per_line c text); [reflexivity | discriminate].
Defined.

(** ** The basic mode *)

(** X7. Without a canvas the message carries the prompt verbatim, between
    double quotes. *)
Theorem basic_mode_quotes_prompt (prompt : string) :
  str_contains (dquote +:+ prompt +:+ dquote)
    (craft_system_message None prompt) = true
  /\ str_contains prompt (craft_system_message None prompt) = true.
Proof.
  unfold craft_system_message, get_rephrased_user_prompt. split.
  - do 3 apply contains_skip. apply contains_iff.
    exists "", (nl +:+ "    Rephrased:"). by rewrite append_nil, !append_assoc.
  - do 4 apply contains_skip. apply contains_here.
Qed.

(** X8. Without a canvas, different prompts give different messages. *)
Theorem get_rephrased_user_prompt_injective (prompt1 prompt2 : string) :
  get_rephrased_user_prompt prompt1 = get_rephrased_user_prompt prompt2 ->
  prompt1 = prompt2.
Proof.
  unfold get_rephrased_user_prompt. intros H.
  do 4 apply String.app_inj in H.
  by apply append_cancel_r in H.
Qed.

Lemma get_rephrased_user_prompt_injective_witness : "hello" = "hello".
Proof. apply (get_rephrased_user_prompt_injective "hello" "hello"). reflexivity. Defined.

(** ** Failures and edge cases of the request *)

Section Edges.
Context {sdk : GroqSDK}.

(** X9. When the client cannot be constructed, nothing is sent: the
    call raises the generic error that carries the text of the cause, and
    the requests and the objects are as before. *)
Theorem client_failure_sends_nothing (prompt model : string)
    (temperature : float) (max_tokens : Z) (canvas : option loc) (s : state)
    (e : exn) (w : World) :
  Groq (world s) = (Raise e, w) ->
  Obj.rephrase_prompt prompt model temperature max_tokens canvas s
  = (Raise (mkExn "Exception" ("Prompt engineering error: " +:+ exn_str e)),
     mkState (heap s) w (sent s)).
Proof. intros H. rewrite rephrase_prompt_run, H. reflexivity. Qed.

(** X10. A completion without choices is not a result: the request has
    gone out, and the call raises the generic error around the index
    error. *)
Theorem reply_without_choices_raises (prompt model : string)
    (temperature : float) (max_tokens : Z) (canvas : option loc) (s : state)
    (groq : Client) (w w' : World) (v : option PromptCanvas)
    (response : Response.ChatCompletion) :
  Groq (world s) = (Ok groq, w) ->
  deref s canvas = Some v ->
  chat_completions_create groq
    (request_with (craft_system_message v prompt) model temperature max_tokens)
    w = (Ok response, w') ->
  Response.choices response = [] ->
  Obj.rephrase_prompt prompt model temperature max_tokens canvas s
  = (Raise (mkExn "Exception"
              "Prompt engineering error: list index out of range"),
     mkState (heap s) w'
       (sent s ++ [request_with (craft_system_message v prompt) model
                     temperature max_tokens])).
Proof.
  intros Hclient Hcanvas Hcall Hchoices.
  rewrite rephrase_prompt_run, Hclient, Hcanvas. cbn zeta.
  rewrite Hcall. unfold read_reply. by rewrite Hchoices.
Qed.

(** X11. A first choice whose content is [None] is not a result either:
    the call raises the generic error around the attribute error. *)
Theorem reply_without_content_raises (prompt model : string)
    (temperature : float) (max_tokens : Z) (canvas : option loc) (s : state)
    (groq : Client) (w w' : World) (v : option PromptCanvas)
    (response : Response.ChatCompletion) (choice : Response.Choice)
    (rest : list Response.Choice) :
  Groq (world s) = (Ok groq, w) ->
  deref s canvas = Some v ->
  chat_completions_create groq
    (request_with (craft_system_message v prompt) model temperature max_tokens)
    w = (Ok response, w') ->
  Response.choices response = choice :: rest ->
  Response.content (Response.message choice) = None ->
  fst (Obj.rephrase_prompt prompt model temperature max_tokens canvas s)
  = Raise (mkExn "Exception"
             "Prompt engineering error: 'NoneType' object has no attribute 'strip'").
Proof.
  intros Hclient Hcanvas Hcall Hchoices Hcontent.
  rewrite rephrase_prompt_run, Hclient, Hcanvas. cbn zeta.
  rewrite Hcall. unfold read_reply. by rewrite Hchoices, Hcontent.
Qed.

(** X12. A reply of white space only is a success with the empty string
    as its result; only the first choice counts. *)
Theorem blank_reply_returns_empty (prompt model : string)
    (temperature : float) (max_tokens : Z) (canvas : option loc) (s : state)
    (groq : Client) (w w' : World) (v : option PromptCanvas)
    (response : Response.ChatCompletion) (choice : Response.Choice)
    (rest : list Response.Choice) (text : string) :
  Groq (world s) = (Ok groq, w) ->
  deref s canvas = Some v ->
  chat_completions_create groq
    (request_with (craft_system_message v prompt) model temperature max_tokens)
    w = (Ok response, w') ->
  Response.choices response = choice :: rest ->
  Response.content (Response.message choice) = Some text ->
  all_space text = true ->
  fst (Obj.rephrase_prompt prompt model temperature max_tokens canvas s)
  = Ok "".
Proof.
  intros Hclient Hcanvas Hcall Hchoices Hcontent Hblank.
  rewrite rephrase_prompt_run, Hclient, Hcanvas. cbn zeta.
  rewrite Hcall. unfold read_reply. rewrite Hchoices, Hcontent. simpl.
  by apply strip_all_space in Hblank as ->.
Qed.

End Edges.

Lemma client_failure_sends_nothing_witness :
  @Obj.rephrase_prompt stub_sdk "hello" "m" half 10%Z None (demo_state NoKey)
  = (Raise (mkExn "Exception"
              "Prompt engineering error: The api_key client option must be set"),
     demo_state NoKey).
Proof.
  apply (@client_failure_sends_nothing stub_sdk "hello" "m" half 10%Z None
           (demo_state NoKey)
           (mkExn "GroqError" "The api_key client option must be set") NoKey).
  reflexivity.
Defined.

Lemma reply_without_choices_raises_witness :
  fst (@Obj.rephrase_prompt stub_sdk "hello" "m" half 10%Z None
         (demo_state NoChoices))
  = Raise (mkExn "Exception"
             "Prompt engineering error: list index out of range").
Proof.
  rewrite (@reply_without_choices_raises stub_sdk "hello" "m" half 10%Z None
             (demo_state NoChoices) tt NoChoices NoChoices None
             (Response.mkChatCompletion [])); reflexivity.
Defined.

Lemma reply_without_content_raises_witness :
  fst (@Obj.rephrase_prompt stub_sdk "hello" "m" half 10%Z None
         (demo_state NullContent))
  = Raise (mkExn "Exception"
             "Prompt engineering error: 'NoneType' object has no attribute 'strip'").
Proof.
  apply (@reply_without_content_raises stub_sdk "hello" "m" half 10%Z None
           (demo_state NullContent) tt NullContent NullContent None
           (Response.mkChatCompletion
              [Response.mkChoice (Response.mkMessage None)])
           (Response.mkChoice (Response.mkMessage None)) []);
    reflexivity.
Defined.

Lemma blank_reply_returns_empty_witness :
  fst (@Obj.rephrase_prompt stub_sdk "hello" "m" half 10%Z None
         (demo_state (Answers (" " +:+ nl +:+ " "))))
  = Ok "".
Proof.
  apply (@blank_reply_returns_empty stub_sdk "hello" "m" half 10%Z None
           (demo_state (Answers (" " +:+ nl +:+ " "))) tt
           (Answers (" " +:+ nl +:+ " ")) (Answers (" " +:+ nl +:+ " ")) None
           (Response.mkChatCompletion
              [Response.mkChoice
                 (Response.mkMessage (Some (" " +:+ nl +:+ " ")))])
           (Response.mkChoice (Response.mkMessage (Some (" " +:+ nl +:+ " "))))
           [] (" " +:+ nl +:+ " "));
    reflexivity.
Defined.

(** ** The command line *)

Section CommandLine.
Context {sdk : GroqSDK}.

Lemma strip_idempotent (t : string) : strip (strip t) = strip t.
Proof.
  destruct (strip_spec t) as (a & b & _ & _ & _ & Hs & He). by apply strip_id.
Qed.

Lemma rephrase_prompt_returns_stripped (prompt model : string)
    (temperature : float) (max_tokens : Z) (canvas : option loc) (s : state)
    (out : string) :
  fst (Obj.rephrase_prompt prompt model temperature max_tokens canvas s)
  = Ok out ->
  strip out = out.
Proof.
  rewrite rephrase_prompt_run.
  destruct (Groq (world s)) as [[groq|e] w]; [| discriminate].
  destruct (deref s canvas) as [v|]; [| discriminate].
  cbn zeta.
  destruct (chat_completions_create _ _ w) as [[response|e] w'];
    [| discriminate].
  simpl. unfold read_reply.
  destruct (Response.choices response) as [|choice rest]; [discriminate |].
  destruct (Response.content (Response.message choice)) as [text|];
    [| discriminate].
  intros [= <-]. apply strip_idempotent.
Qed.

Lemma main_run (args : Cli.Namespace) (s : state) :
  Cli.main args s
  = match Obj.rephrase_prompt (Cli.prompt args) (Cli.model args)
            (Cli.temperature args) (Cli.max_tokens args) None s with
    | (Ok rephrased, s') => (Ok ["Rephrased prompt:"; rephrased], s')
    | (Raise e, s') => (Ok ["Error: " +:+ exn_str e], s')
    end.
Proof.
  unfold Cli.main, try_except, mbind, M_bind.
  by destruct (Obj.rephrase_prompt _ _ _ _ None s) as [[?|?] ?].
Qed.

End CommandLine.

Section CommandLineRequest.
Context {sdk : GroqSDK}.

(** X14. From the command line the request is always the basic one: with
    a client at hand, [main] sends the single request whose message is the
    rephrasing instruction around the prompt argument, with the model,
    temperature and token limit of the arguments, and it creates or
    changes no canvas. *)
Theorem main_sends_basic_request (args : Cli.Namespace) (s : state)
    (groq : Client) (w : World) :
  Groq (world s) = (Ok groq, w) ->
  sent (snd (Cli.main args s))
  = (sent s ++ [request_with (get_rephrased_user_prompt (Cli.prompt args))
                  (Cli.model args) (Cli.temperature args)
                  (Cli.max_tokens args)])%list
  /\ heap (snd (Cli.main args s)) = heap s.
Proof.
  intros Hclient. rewrite main_run, rephrase_prompt_run, Hclient. simpl.
  destruct (chat_completions_create _ _ w) as [[response|e] w']; simpl;
    [| done].
  by destruct (read_reply response).
Qed.
End CommandLineRequest.

Lemma main_sends_basic_request_witness :
  let run := @Cli.main stub_sdk (Cli.mkNamespace "hello" "m" half 10%Z)
               (demo_state (Answers "hi")) in
  sent (snd run)
  = [request_with (get_rephrased_user_prompt "hello") "m" half 10%Z]
  /\ heap (snd run) = heap (demo_state (Answers "hi")).
Proof.
  apply (@main_sends_basic_request stub_sdk
           (Cli.mkNamespace "hello" "m" half 10%Z)
           (demo_state (Answers "hi")) tt (Answers "hi")).
  reflexivity.
Defined.

(** ** The button handler *)

Section Handler.
Context {sdk : GroqSDK} {host : Host sdk}.

Lemma advanced_mode_run (persona audience task steps_text context
    references_text output_format tonality canvas_prompt model : string)
    (temperature : float) (max_tokens : Z) (s : state) :
  App.advanced_mode persona audience task steps_text context references_text
    output_format tonality canvas_prompt model temperature max_tokens s
  = let self := fresh (dom (heap s)) in
    match Obj.rephrase_prompt canvas_prompt model temperature max_tokens
            (Some self)
            (mkState
               (<[self := mkPromptCanvas persona audience task
                            (Some (nonblank_lines steps_text)) context
                            (Some (nonblank_lines references_text))
                            output_format tonality]> (heap s))
               (world s) (sent s)) with
    | (Ok out, s') => (Ok (self, out), s')
    | (Raise e, s') => (Raise e, s')
    end.
Proof.
  unfold App.advanced_mode.
  rewrite (bind_ok _ _ _ _ _ (new_PromptCanvas_run _ _ _ _ _ _ _ _ s)).
  unfold mbind, M_bind, mret, M_ret. cbn zeta. simpl default.
  by destruct (Obj.rephrase_prompt _ _ _ _ _ _) as [[?|?] ?].
Qed.

(** The handler, case by case. *)
Lemma on_click_run (GROQ_API_KEY user_prompt persona audience task steps_text
    context references_text output_format tonality canvas_prompt model : string)
    (temperature : float) (max_tokens : Z) (s : state) :
  Page.on_click GROQ_API_KEY user_prompt persona audience task steps_text
    context references_text output_format tonality canvas_prompt model
    temperature max_tokens s
  = if negb (str_truthy GROQ_API_KEY) then
      (Ok [st_error "Please enter your GROQ API Key in the sidebar."], s)
    else if str_truthy user_prompt || str_truthy canvas_prompt then
      match import_Grompt (set_GROQ_API_KEY GROQ_API_KEY (world s)) with
      | (Raise e, w) =>
          (Ok [st_error ("Unable to import 'Grompt': " +:+ exn_str e)],
           mkState (heap s) w (sent s))
      | (Ok _, w) =>
          let self := fresh (dom (heap s)) in
          let run :=
            if str_truthy canvas_prompt then
              Obj.rephrase_prompt canvas_prompt model temperature max_tokens
                (Some self)
                (mkState
                   (<[self := mkPromptCanvas persona audience task
                                (Some (nonblank_lines steps_text)) context
                                (Some (nonblank_lines references_text))
                                output_format tonality]> (heap s))
                   w (sent s))
            else
              Obj.rephrase_prompt user_prompt model temperature max_tokens
                None (mkState (heap s) w (sent s)) in
          match run with
          | (Ok out, s') => (Ok (Page.display out), s')
          | (Raise e, s') => (Raise e, s')
          end
      end
    else (Ok [st_warning "Please enter a prompt to optimize."], s).
Proof.
  unfold Page.on_click.
  destruct (str_truthy GROQ_API_KEY); [| reflexivity]. cbn [negb].
  destruct (str_truthy user_prompt || str_truthy canvas_prompt);
    [| reflexivity].
  unfold mbind, M_bind, Page.setenv, try_except, Page.import_module_from_path,
    mret, M_ret.
  cbn beta iota zeta. simpl world. simpl heap. simpl sent.
  destruct (import_Grompt _) as [[[]|e] w]; [| reflexivity].
  destruct (str_truthy canvas_prompt).
  - rewrite advanced_mode_run. cbn zeta.
    by destruct (Obj.rephrase_prompt _ _ _ _ _ _) as [[?|?] ?].
  - by destruct (Obj.rephrase_prompt _ _ _ _ _ _) as [[?|?] ?].
Qed.
End Handler.

Section HandlerProperties.
Context {sdk : GroqSDK} {host : Host sdk}.

(** X15. The handler sends nothing without an API key, without a prompt,
    or when the module cannot be imported: if the requests after the click
    differ from those before, the key was non-empty, one of the two
    prompts was non-empty, and the import succeeded. *)
Theorem request_needs_key_and_prompt (GROQ_API_KEY user_prompt persona
    audience task steps_text context references_text output_format tonality
    canvas_prompt model : string) (temperature : float) (max_tokens : Z)
    (s : state) :
  sent (snd (Page.on_click GROQ_API_KEY user_prompt persona audience task
               steps_text context references_text output_format tonality
               canvas_prompt model temperature max_tokens s)) <> sent s ->
  GROQ_API_KEY <> ""
  /\ (user_prompt <> "" \/ canvas_prompt <> "")
  /\ exists w, import_Grompt (set_GROQ_API_KEY GROQ_API_KEY (world s))
               = (Ok tt, w).
Proof.
  rewrite on_click_run.
  destruct GROQ_API_KEY as [|k key]; [done |]. cbn [str_truthy negb].
  destruct user_prompt as [|u up], canvas_prompt as [|c cp];
    cbn [str_truthy orb]; try done.
  all: destruct (import_Grompt _) as [[[]|e] w]; [| done].
  all: intros _; repeat split; eauto.
Qed.

(** X16. When the import fails, the handler stops after one error box
    that carries the text of the failure; no request is sent and no canvas
    is made. *)
Theorem import_failure_stops_handler (GROQ_API_KEY user_prompt persona
    audience task steps_text context references_text output_format tonality
    canvas_prompt model : string) (temperature : float) (max_tokens : Z)
    (s : state) (e : exn) (w : World) :
  GROQ_API_KEY <> "" ->
  user_prompt <> "" \/ canvas_prompt <> "" ->
  import_Grompt (set_GROQ_API_KEY GROQ_API_KEY (world s)) = (Raise e, w) ->
  Page.on_click GROQ_API_KEY user_prompt persona audience task steps_text
    context references_text output_format tonality canvas_prompt model
    temperature max_tokens s
  = (Ok [st_error ("Unable to import 'Grompt': " +:+ exn_str e)],
     mkState (heap s) w (sent s)).
Proof.
  intros Hkey Hprompt Himport. rewrite on_click_run, Himport.
  destruct GROQ_API_KEY; [done |]. cbn [str_truthy negb].
  by destruct Hprompt, user_prompt, canvas_prompt.
Qed.

(** X17. A non-empty canvas prompt selects the advanced mode whatever
    the basic prompt says, and neither prompt reaches the request: the
    click has the same outcome for any two basic prompts and any two
    non-empty canvas prompts. *)
Theorem advanced_mode_takes_precedence (GROQ_API_KEY user_prompt1 user_prompt2
    persona audience task steps_text context references_text output_format
    tonality canvas_prompt1 canvas_prompt2 model : string)
    (temperature : float) (max_tokens : Z) (s : state) :
  canvas_prompt1 <> "" -> canvas_prompt2 <> "" ->
  Page.on_click GROQ_API_KEY user_prompt1 persona audience task steps_text
    context references_text output_format tonality canvas_prompt1 model
    temperature max_tokens s
  = Page.on_click GROQ_API_KEY user_prompt2 persona audience task steps_text
      context references_text output_format tonality canvas_prompt2 model
      temperature max_tokens s.
Proof.
  intros H1 H2. rewrite !on_click_run.
  destruct canvas_prompt1 as [|c1 cp1]; [done |].
  destruct canvas_prompt2 as [|c2 cp2]; [done |].
  cbn [str_truthy]. rewrite !orb_true_r.
  destruct (negb (str_truthy GROQ_API_KEY)); [reflexivity |].
  destruct (import_Grompt _) as [[[]|e] w]; [| reflexivity].
  cbn zeta. rewrite !rephrase_prompt_run. simpl world. simpl deref.
  destruct (Groq w) as [[groq|e] w1]; [| reflexivity].
  by rewrite lookup_insert_eq.
Qed.

(** X18. In the basic mode, with the import done and a client at hand,
    the click sends one request whose message is the rephrasing
    instruction around the basic prompt, and makes no canvas. *)
Theorem basic_click_sends_quoted_prompt (GROQ_API_KEY user_prompt persona
    audience task steps_text context references_text output_format tonality
    model : string) (temperature : float) (max_tokens : Z) (s : state)
    (w w1 : World) (groq : Client) :
  GROQ_API_KEY <> "" -> user_prompt <> "" ->
  import_Grompt (set_GROQ_API_KEY GROQ_API_KEY (world s)) = (Ok tt, w) ->
  Groq w = (Ok groq, w1) ->
  let after :=
    snd (Page.on_click GROQ_API_KEY user_prompt persona audience task
           steps_text context references_text output_format tonality ""
           model temperature max_tokens s) in
  sent after
  = (sent s ++ [request_with (get_rephrased_user_prompt user_prompt) model
                  temperature max_tokens])%list
  /\ heap after = heap s.
Proof.
  intros Hkey Hprompt Himport Hclient after. subst after.
  rewrite on_click_run, Himport.
  destruct GROQ_API_KEY; [done |]. destruct user_prompt; [done |].
  cbn [str_truthy negb orb]. cbn zeta.
  rewrite rephrase_prompt_run. simpl world. rewrite Hclient. simpl.
  destruct (chat_completions_create _ _ w1) as [[response|e] w2]; simpl;
    [| done].
  by destruct (read_reply response).
Qed.

(** X19. In the advanced mode, with the import done and a client at
    hand, the click makes one canvas from the form, the two text areas
    read line by line, and sends one request whose message is that canvas
    rendered. *)
Theorem advanced_click_sends_canvas (GROQ_API_KEY user_prompt persona
    audience task steps_text context references_text output_format tonality
    canvas_prompt model : string) (temperature : float) (max_tokens : Z)
    (s : state) (w w1 : World) (groq : Client) :
  GROQ_API_KEY <> "" -> canvas_prompt <> "" ->
  import_Grompt (set_GROQ_API_KEY GROQ_API_KEY (world s)) = (Ok tt, w) ->
  Groq w = (Ok groq, w1) ->
  let c := mkPromptCanvas persona audience task
             (Some (nonblank_lines steps_text)) context
             (Some (nonblank_lines references_text)) output_format tonality in
  let after :=
    snd (Page.on_click GROQ_API_KEY user_prompt persona audience task
           steps_text context references_text output_format tonality
           canvas_prompt model temperature max_tokens s) in
  sent after
  = (sent s ++ [request_with (template c (steps_str c) (references_str c))
                  model temperature max_tokens])%list
  /\ heap after = <[fresh (dom (heap s)) := c]> (heap s).
Proof.
  intros Hkey Hprompt Himport Hclient c after. subst after.
  rewrite on_click_run, Himport.
  destruct GROQ_API_KEY; [done |]. destruct canvas_prompt; [done |].
  cbn [str_truthy negb]. rewrite orb_true_r. cbn zeta.
  rewrite rephrase_prompt_run. simpl world. rewrite Hclient.
  simpl deref. rewrite lookup_insert_eq, fmap_Some_eq, craft_is_template.
  fold c. simpl.
  destruct (chat_completions_create _ _ w1) as [[response|e] w2]; simpl;
    [| done].
  by destruct (read_reply response).
Qed.


(** X21. What the handler writes as the optimized prompt is never empty
    and has no white space at its ends, and it comes under its heading as
    the only other thing shown. *)
Theorem written_result_is_nonempty (GROQ_API_KEY user_prompt persona audience
    task steps_text context references_text output_format tonality
    canvas_prompt model : string) (temperature : float) (max_tokens : Z)
    (s : state) (shown : list widget) (out : string) :
  fst (Page.on_click GROQ_API_KEY user_prompt persona audience task
         steps_text context references_text output_format tonality
         canvas_prompt model temperature max_tokens s) = Ok shown ->
  In (st_write out) shown ->
  out <> "" /\ strip out = out
  /\ shown = [st_subheader "Optimized Prompt:"; st_write out].
Proof.
  rewrite on_click_run.
  destruct (negb (str_truthy GROQ_API_KEY));
    [intros [= <-] [[=]|[]] |].
  destruct (str_truthy user_prompt || str_truthy canvas_prompt);
    [| intros [= <-] [[=]|[]]].
  destruct (import_Grompt _) as [[[]|e0] w];
    [| intros [= <-] [[=]|[]]].
  cbn zeta.
  assert (forall run : result string * state,
            (forall r, fst run = Ok r -> strip r = r) ->
            fst (match run with
                 | (Ok r, s') => (Ok (Page.display r), s')
                 | (Raise e, s') => (Raise e, s')
                 end) = Ok shown ->
            In (st_write out) shown ->
            out <> "" /\ strip out = out
            /\ shown = [st_subheader "Optimized Prompt:"; st_write out])
    as Hshow.
  { intros [[r|e0] s'] Hstripped; [| discriminate].
    simpl. intros [= <-]. unfold Page.display.
    destruct r as [|ch r]; [intros [] |].
    intros [[=]|[[= <-]|[]]]. repeat split; [done |].
    by apply Hstripped. }
  destruct (str_truthy canvas_prompt);
    apply Hshow; apply rephrase_prompt_returns_stripped.
Qed.
End HandlerProperties.

Lemma request_needs_key_and_prompt_witness :
  "k" <> ""
  /\ ("hello" <> "" \/ "" <> "")
  /\ exists w, @import_Grompt stub_sdk stub_host
                 (@set_GROQ_API_KEY stub_sdk stub_host "k" (Answers "hi"))
               = (Ok tt, w).
Proof.
  apply (@request_needs_key_and_prompt stub_sdk stub_host "k" "hello" "p" "a"
           "t" "s" "c" "r" "Code" "dry" "" "m" half 10%Z
           (demo_state (Answers "hi"))).
  vm_compute. discriminate.
Defined.

Lemma import_failure_stops_handler_witness :
  @Page.on_click stub_sdk broken_host "k" "hello" "p" "a" "t" "s" "c" "r"
    "Code" "dry" "" "m" half 10%Z (demo_state (Answers "hi"))
  = (Ok [st_error
           "Unable to import 'Grompt': [Errno 2] No such file or directory: 'Grompt.py'"],
     demo_state (Answers "hi")).
Proof.
  apply (@import_failure_stops_handler stub_sdk broken_host "k" "hello" "p" "a"
           "t" "s" "c" "r" "Code" "dry" "" "m" half 10%Z
           (demo_state (Answers "hi"))
           (mkExn "FileNotFoundError"
              "[Errno 2] No such file or directory: 'Grompt.py'")
           (Answers "hi")).
  - discriminate.
  - left. discriminate.
  - reflexivity.
Defined.

Lemma advanced_mode_takes_precedence_witness :
  @Page.on_click stub_sdk stub_host "k" "basic one" "p" "a" "t" "s" "c" "r"
    "Code" "dry" "x" "m" half 10%Z (demo_state (Answers "hi"))
  = @Page.on_click stub_sdk stub_host "k" "" "p" "a" "t" "s" "c" "r"
      "Code" "dry" "something else" "m" half 10%Z (demo_state (Answers "hi")).
Proof.
  apply (@advanced_mode_takes_precedence stub_sdk stub_host "k" "basic one" ""
           "p" "a" "t" "s" "c" "r" "Code" "dry" "x" "something else" "m" half
           10%Z (demo_state (Answers "hi"))); discriminate.
Defined.

Lemma basic_click_sends_quoted_prompt_witness :
  let after :=
    snd (@Page.on_click stub_sdk stub_host "k" "hello" "p" "a" "t" "s" "c" "r"
           "Code" "dry" "" "m" half 10%Z (demo_state (Answers "hi"))) in
  sent after = [request_with (get_rephrased_user_prompt "hello") "m" half 10%Z]
  /\ heap after = heap (demo_state (Answers "hi")).
Proof.
  apply (@basic_click_sends_quoted_prompt stub_sdk stub_host "k" "hello" "p"
           "a" "t" "s" "c" "r" "Code" "dry" "m" half 10%Z
           (demo_state (Answers "hi")) (Answers "hi") (Answers "hi") tt).
  - discriminate.
  - discriminate.
  - reflexivity.
  - reflexivity.
Defined.

Lemma advanced_click_sends_canvas_witness :
  let c := mkPromptCanvas "p" "a" "t" (Some ["s1"; "s2"]) "c" (Some [])
             "Code" "dry" in
  let after :=
    snd (@Page.on_click stub_sdk stub_host "k" "" "p" "a" "t"
           (" s1" +:+ nl +:+ nl +:+ "s2 ") "c" " " "Code" "dry" "go" "m" half
           10%Z (demo_state (Answers "hi"))) in
  sent after
  = [request_with (template c (steps_str c) (references_str c)) "m" half 10%Z]
  /\ heap after = <[2%positive := c]> (heap (demo_state (Answers "hi"))).
Proof.
  apply (@advanced_click_sends_canvas stub_sdk stub_host "k" "" "p" "a" "t"
           (" s1" +:+ nl +:+ nl +:+ "s2 ") "c" " " "Code" "dry" "go" "m" half
           10%Z (demo_state (Answers "hi")) (Answers "hi") (Answers "hi") tt).
  - discriminate.
  - discriminate.
  - reflexivity.
  - reflexivity.
Defined.


Lemma written_result_is_nonempty_witness :
  "hi" <> "" /\ strip "hi" = "hi"
  /\ [st_subheader "Optimized Prompt:"; st_write "hi"]
     = [st_subheader "Optimized Prompt:"; st_write "hi"].
Proof.
  apply (@written_result_is_nonempty stub_sdk stub_host "k" "hello" "p" "a"
           "t" "s" "c" "r" "Code" "dry" "" "m" half 10%Z
           (demo_state (Answers " hi "))).
  - reflexivity.
  - right. left. reflexivity.
Defined.

(** ** The constructor, once more *)

Section ConstructorFrame.
Context {sdk : GroqSDK}.

(** X22. Constructing a canvas touches nothing that was there: every
    object of the store is as before, and so are the outside world and the
    requests sent. *)
Theorem new_PromptCanvas_keeps_the_rest (persona audience task : string)
    (steps_arg : option (list string)) (context : string)
    (references_arg : option (list string)) (output_format tonality : string)
    (s : state) (l : loc) (c : PromptCanvas) :
  heap s !! l = Some c ->
  let after := snd (App.new_PromptCanvas persona audience task steps_arg
                      context references_arg output_format tonality s) in
  heap after !! l = Some c /\ world after = world s /\ sent after = sent s.
Proof.
  intros Hl after. subst after. rewrite new_PromptCanvas_run. simpl.
  repeat split. rewrite lookup_insert_ne; [done |].
  intros <-. by rewrite fresh_not_in_heap in Hl.
Qed.

(** X23. [__post_init__] writes only where it finds [None]: on an
    object whose steps and references are lists it changes nothing, so
    running it a second time is harmless. *)
Theorem post_init_keeps_lists (self : loc) (s : state) (c : PromptCanvas) :
  heap s !! self = Some c ->
  is_Some (steps c) -> is_Some (references c) ->
  App.__post_init__ self s = (Ok tt, s).
Proof.
  intros Hself [xs Hsteps] [rs Hrefs]. unfold App.__post_init__.
  rewrite (bind_getattr _ _ _ _ _ Hself), Hsteps.
  unfold mbind at 1, M_bind at 1. unfold mret at 1, M_ret at 1.
  by rewrite (bind_getattr _ _ _ _ _ Hself), Hrefs.
Qed.
End ConstructorFrame.

Lemma new_PromptCanvas_keeps_the_rest_witness :
  let after := snd (@App.new_PromptCanvas stub_sdk "p" "a" "t" None "c" None
                      "Code" "dry" (demo_state NoKey)) in
  heap after !! 1%positive = Some demo
  /\ world after = NoKey /\ sent after = [].
Proof.
  apply (@new_PromptCanvas_keeps_the_rest stub_sdk "p" "a" "t" None "c" None
           "Code" "dry" (demo_state NoKey) 1%positive demo).
  reflexivity.
Defined.

Lemma post_init_keeps_lists_witness :
  @App.__post_init__ stub_sdk 1%positive (demo_state NoKey)
  = (Ok tt, demo_state NoKey).
Proof.
  apply (@post_init_keeps_lists stub_sdk 1%positive (demo_state NoKey) demo).
  - reflexivity.
  - by eexists.
  - by eexists.
Defined.
